(** * driftguard: the suggestion boundary, the exit signal and the flag parser

    A shallow embedding of [drift_detector/llm.py], [drift_detector/cli.py]
    and [drift_detector/config.py], with the properties of the
    specification that concern them.

    Python values are an inductive type, [str] is a Stdlib string whose
    characters are the code points below 256, dictionaries keyed by strings
    are [gmap string _], exceptions are values of a result type, and the
    effects of the code (calls to the text-generation chain, log records,
    [os.environ], standard output) are threaded through a state and error
    monad. *)

From Stdlib Require Import ZArith NArith String Ascii List Bool Lia.
From Stdlib Require Import Floats.SpecFloat.
From stdpp Require Import base option gmap strings list fin_maps.

Local Open Scope string_scope.
Set Warnings "-register-all".

(** ** Python values and the builtins the code uses *)

Module Py.

(** [str.isspace] on one code point below 256: the characters that
    [str.strip()] removes. *)
Definition is_space (c : ascii) : bool :=
  let n := N_of_ascii c in
  ((9 <=? n) && (n <=? 13) || (28 <=? n) && (n <=? 32)
   || (n =? 133) || (n =? 160))%N.

(** [str.lower] on one code point below 256: the ASCII capitals and the
    Latin-1 capitals (all of 0xC0-0xDE but the multiplication sign). *)
Definition lower_char (c : ascii) : ascii :=
  let n := N_of_ascii c in
  if ((65 <=? n) && (n <=? 90) || (192 <=? n) && (n <=? 214)
      || (216 <=? n) && (n <=? 222))%N
  then ascii_of_N (n + 32) else c.

Fixpoint lower (s : string) : string :=
  match s with
  | EmptyString => EmptyString
  | String c s' => String (lower_char c) (lower s')
  end.

Fixpoint lstrip (s : string) : string :=
  match s with
  | EmptyString => EmptyString
  | String c s' => if is_space c then lstrip s' else s
  end.

Fixpoint rstrip (s : string) : string :=
  match s with
  | EmptyString => EmptyString
  | String c s' =>
      match rstrip s' with
      | EmptyString => if is_space c then EmptyString else String c EmptyString
      | r => String c r
      end
  end.

(** [s.strip()] *)
Definition strip (s : string) : string := rstrip (lstrip s).

(** [sep.join(parts)] *)
Fixpoint join (sep : string) (parts : list string) : string :=
  match parts with
  | [] => EmptyString
  | [p] => p
  | p :: rest => p ++ sep ++ join sep rest
  end.

(** [str(b)] for a bool, as an f-string renders it. *)
Definition str_bool (b : bool) : string := if b then "True" else "False".

(** The values [json.loads] can build, which are also the values that flow
    through the fields of an issue. *)
Inductive pyobj : Type :=
| PyNone
| PyBool (b : bool)
| PyInt (z : Z)
| PyFloat (f : spec_float)
| PyStr (s : string)
| PyList (l : list pyobj)
| PyDict (d : gmap string pyobj).

(** [bool(v)]: what [not v] and [v or w] test. *)
Definition truthy (v : pyobj) : bool :=
  match v with
  | PyNone => false
  | PyBool b => b
  | PyInt z => negb (z =? 0)%Z
  | PyFloat (S754_zero _) => false
  | PyFloat _ => true
  | PyStr EmptyString => false
  | PyStr _ => true
  | PyList [] => false
  | PyList _ => true
  | PyDict d => negb (bool_decide (d = ∅))
  end.

(** [v or w] *)
Definition py_or (v w : pyobj) : pyobj := if truthy v then v else w.

(** [type(v).__name__] *)
Definition type_name (v : pyobj) : string :=
  match v with
  | PyNone => "NoneType"
  | PyBool _ => "bool"
  | PyInt _ => "int"
  | PyFloat _ => "float"
  | PyStr _ => "str"
  | PyList _ => "list"
  | PyDict _ => "dict"
  end.

(** An [Optional[str]] attribute read as a Python value. *)
Definition of_opt (o : option string) : pyobj :=
  match o with
  | Some s => PyStr s
  | None => PyNone
  end.

(** Exceptions: the classes below [Exception] that the code meets.
    [Other] stands for any other subclass of [Exception] raised by a
    collaborator (a network error, a validation error, ...). *)
Inductive exn : Type :=
| AttributeError (type_of attr : string)
| JSONDecodeError (msg : string)
| ValueError (msg : string)
| RuntimeError (msg : string)
| Other (cls msg : string).

Inductive outcome (A : Type) : Type :=
| Ok (a : A)
| Raise (e : exn).
Arguments Ok {A} a.
Arguments Raise {A} e.

(** Computations over a state [S] that may raise: the state reached when
    the exception is raised is kept, as in Python. *)
Definition M (S A : Type) : Type := S -> outcome A * S.

Definition ret {S A} (a : A) : M S A := fun s => (Ok a, s).
Definition raise {S A} (e : exn) : M S A := fun s => (Raise e, s).
Definition bind {S A B} (m : M S A) (k : A -> M S B) : M S B :=
  fun s => match m s with
           | (Ok a, s') => k a s'
           | (Raise e, s') => (Raise e, s')
           end.
Definition lift {S A} (o : outcome A) : M S A := fun s => (o, s).
Definition get {S} : M S S := fun s => (Ok s, s).
Definition modify {S} (f : S -> S) : M S unit := fun s => (Ok tt, f s).

(** [try: body  except Exception as exc: handler(exc)] *)
Definition try_except {S A} (body : M S A) (handler : exn -> M S A) : M S A :=
  fun s => match body s with
           | (Ok a, s') => (Ok a, s')
           | (Raise e, s') => handler e s'
           end.

(** [v.get(key)]: the method exists on dictionaries only. *)
Definition py_get (v : pyobj) (key : string) : outcome pyobj :=
  match v with
  | PyDict d => Ok (default PyNone (d !! key))
  | _ => Raise (AttributeError (type_name v) "get")
  end.

End Py.

Declare Scope py_scope.
Delimit Scope py_scope with py.
Notation "'let!' x ':=' m 'in' k" := (Py.bind m (fun x => k))
  (at level 10, x pattern, m at level 100, k at level 200) : py_scope.
Notation "'do!' m 'in' k" := (Py.bind m (fun _ => k))
  (at level 10, m at level 100, k at level 200) : py_scope.

(** ** The data model

    [drift_detector/models.py] is not among the sources; its classes are
    taken from the data model of the specification and from the way
    [llm.py] and [cli.py] read and build them. *)

Module Models.
Import Py.

(** Modelled from the spec: the [Severity] enumeration of the missing
    [models.py], "ordered enumeration {low, medium, critical}". *)
Inductive Severity : Type := LOW | MEDIUM | CRITICAL.

(** [severity.value], the identifiers the command line offers as choices
    and the prompt asks the model for. *)
Definition severity_value (s : Severity) : string :=
  match s with
  | LOW => "low"
  | MEDIUM => "medium"
  | CRITICAL => "critical"
  end.

(** The members in the order [for severity in Severity] visits them. *)
Definition Severity_members : list Severity := [LOW; MEDIUM; CRITICAL].

Definition severity_eqb (a b : Severity) : bool :=
  match a, b with
  | LOW, LOW | MEDIUM, MEDIUM | CRITICAL, CRITICAL => true
  | _, _ => false
  end.

(** Modelled from the spec: the [DriftType] enumeration of the missing
    [models.py], with its stable string identifiers. *)
Inductive DriftType : Type :=
| SIGNATURE_CHANGE
| BEHAVIOR_CHANGE
| REMOVED_WITHOUT_DOC_UPDATE
| MISSING_EXAMPLE_UPDATE
| STALE_INLINE_COMMENT
| UNDOCUMENTED_ADDITION.

Definition drift_type_value (t : DriftType) : string :=
  match t with
  | SIGNATURE_CHANGE => "signature_change"
  | BEHAVIOR_CHANGE => "behavior_change"
  | REMOVED_WITHOUT_DOC_UPDATE => "removed_without_doc_update"
  | MISSING_EXAMPLE_UPDATE => "missing_example_update"
  | STALE_INLINE_COMMENT => "stale_inline_comment"
  | UNDOCUMENTED_ADDITION => "undocumented_addition"
  end.

Inductive ChangeKind : Type := ADDED | MODIFIED | REMOVED.

(** Modelled from the spec: the record classes of the missing [models.py].
    They are plain records: building one checks nothing about the values
    put in its fields. *)
Module CodeChange.
Record t : Type := Build {
  file_path : string;
  symbol : option string;
  change_kind : ChangeKind;
  old_code : option string;
  new_code : option string;
  summary : string
}.
End CodeChange.

Module DocumentationReference.
Record t : Type := Build {
  file_path : string;
  snippet : string;
  changed : bool
}.
End DocumentationReference.

Module DriftCandidate.
Record t : Type := Build {
  change : CodeChange.t;
  documentation : list DocumentationReference.t;
  drift_type : DriftType;
  description : string
}.
End DriftCandidate.

(** [summary], [suggestion] and [documentation_snippet] receive whatever
    value the response dictionary holds, so they are Python values;
    [documentation_snippet] is [PyNone] when absent. *)
Module DriftIssue.
Record t : Type := Build {
  drift_type : DriftType;
  severity : Severity;
  file_path : string;
  summary : pyobj;
  suggestion : pyobj;
  code_snippet : string;
  documentation_snippet : pyobj;
  metadata : gmap string pyobj
}.
End DriftIssue.

Module DriftReport.
Record t : Type := Build {
  issues : list DriftIssue.t;
  metadata : gmap string pyobj
}.
End DriftReport.

End Models.

(** ** The process: what the code reads and changes outside its values *)

Module Os.
Import Py.

(** A record handed to [logging]: the level is always WARNING here, the
    arguments are strings or the exception being reported. *)
Inductive log_arg : Type :=
| ArgStr (s : string)
| ArgExn (e : exn).

Record log_record : Type := Warning {
  template : string;
  args : list log_arg
}.

(** [environ] is [os.environ], [stdout] the lines printed, [log] the
    records logged, and [calls] the requests sent, in order, to the
    external text-generation chain. *)
Record process : Type := Process {
  environ : gmap string string;
  stdout : list string;
  log : list log_record;
  calls : list (gmap string string)
}.

(** [os.getenv(key)] *)
Definition getenv (key : string) : M process (option string) :=
  fun p => (Ok (environ p !! key), p).

(** [os.getenv(key, fallback)] *)
Definition getenv_or (key fallback : string) : M process string :=
  fun p => (Ok (default fallback (environ p !! key)), p).

Definition set_environ (f : gmap string string -> gmap string string)
    : M process unit :=
  modify (fun p => Process (f (environ p)) (stdout p) (log p) (calls p)).

(** [os.environ[key] = value] *)
Definition setenv (key value : string) : M process unit :=
  set_environ (insert key value).

(** [print(text)] *)
Definition print (text : string) : M process unit :=
  modify (fun p => Process (environ p) (stdout p ++ [text])%list (log p)
                     (calls p)).

(** [logger.warning(template, *args)] *)
Definition logger_warning (template : string) (args : list log_arg)
    : M process unit :=
  modify (fun p => Process (environ p) (stdout p)
                     (log p ++ [Warning template args])%list (calls p)).

End Os.

(** ** [drift_detector/config.py] *)

Module Config.
Import Py Os.
Local Open Scope py_scope.

Record LLMSettings : Type := {
  provider : string;
  model : string;
  base_url : option string;
  api_key : option string;
  temperature : spec_float
}.

Record AnalysisSettings : Type := {
  severity_threshold : string;
  auto_ignore_private_functions : bool;
  check_examples : bool;
  check_inline_comments : bool
}.

Record OutputSettings : Type := {
  format : string;
  save_report : bool;
  report_path : string
}.

Record Settings : Type := {
  repo_path : string;
  llm : LLMSettings;
  analysis : AnalysisSettings;
  output : OutputSettings;
  since : option string;
  from_ref : option string;
  to_ref : option string;
  branch : option string
}.

(** The set literal [{"1", "true", "yes", "on"}]. *)
Definition true_words : gset string := {[ "1"; "true"; "yes"; "on" ]}.

Definition _env_bool (value : option string) (default : bool) : bool :=
  match value with
  | None => default
  | Some value => bool_decide (lower (strip value) ∈ true_words)
  end.

Section Environment.

(** The variables of the [.env] file that [load_dotenv] finds (none when
    there is no such file), and [float] on a string, which raises
    [ValueError] on text that is not a number. *)
Variable dotenv_values : gmap string string.
Variable py_float : string -> outcome spec_float.

(** [load_dotenv()]: variables already in the environment are kept. *)
Definition load_dotenv : M process unit :=
  set_environ (fun env => env ∪ dotenv_values).

Definition load_settings (repo_path : string)
    (since from_ref to_ref branch : option string) : M process Settings :=
  do! load_dotenv in
  let! provider := getenv_or "LLM_PROVIDER" "ollama" in
  let! model := getenv_or "LLM_MODEL" "llama3.1" in
  let! base_url := getenv "LLM_BASE_URL" in
  let! api_key := getenv "LLM_API_KEY" in
  let! temperature_text := getenv_or "LLM_TEMPERATURE" "0" in
  let! temperature := lift (py_float temperature_text) in
  let llm := {| provider := provider; model := model; base_url := base_url;
                api_key := api_key; temperature := temperature |} in
  let! severity_threshold := getenv_or "SEVERITY_THRESHOLD" "low" in
  let! ignore_private := getenv "AUTO_IGNORE_PRIVATE_FUNCTIONS" in
  let! examples := getenv "CHECK_EXAMPLES" in
  let! inline_comments := getenv "CHECK_INLINE_COMMENTS" in
  let analysis :=
    {| severity_threshold := severity_threshold;
       auto_ignore_private_functions := _env_bool ignore_private true;
       check_examples := _env_bool examples true;
       check_inline_comments := _env_bool inline_comments true |} in
  let! format := getenv_or "OUTPUT_FORMAT" "terminal" in
  let! save := getenv "SAVE_REPORT" in
  let! report_path := getenv_or "REPORT_PATH" "./drift_reports" in
  let output :=
    {| format := format; save_report := _env_bool save false;
       report_path := report_path |} in
  ret {| repo_path := repo_path; llm := llm; analysis := analysis;
         output := output; since := since; from_ref := from_ref;
         to_ref := to_ref; branch := branch |}.

End Environment.

End Config.

(** ** [drift_detector/llm.py] *)

Module Llm.
Import Py Os Models.
Local Open Scope py_scope.

(** A LangChain chat model, seen from this code: the name of its class and
    what the chain [prompt | chat_model | StrOutputParser()] answers to a
    request, given the requests it has served before (the text returned, or
    the exception raised). *)
Record BaseChatModel : Type := {
  class_name : string;
  respond : list (gmap string string) -> gmap string string -> outcome string
}.

Section Providers.

(** Which optional integration modules can be imported, and the
    constructors those modules export. *)
Variable importable : string -> bool.
Variable ChatOllama :
  string -> option string -> spec_float -> outcome BaseChatModel.
Variable ChatOpenAI :
  string -> option string -> spec_float -> option string ->
  outcome BaseChatModel.
Variable ChatAnthropic :
  string -> option string -> spec_float -> outcome BaseChatModel.
Variable init_chat_model :
  string -> string -> spec_float -> option string -> outcome BaseChatModel.

Definition create_chat_model (settings : Config.LLMSettings)
    : M process BaseChatModel :=
  let provider := lower (Config.provider settings) in
  if String.eqb provider "ollama" then
    if importable "langchain_community.chat_models" then
      lift (ChatOllama (Config.model settings) (Config.base_url settings)
              (Config.temperature settings))
    else raise (RuntimeError
           "langchain-community package is required for Ollama provider")
  else if String.eqb provider "openai" then
    if importable "langchain_openai" then
      lift (ChatOpenAI (Config.model settings) (Config.api_key settings)
              (Config.temperature settings) (Config.base_url settings))
    else raise (RuntimeError
           "langchain-openai package is required for OpenAI provider")
  else if String.eqb provider "anthropic" then
    if importable "langchain_anthropic" then
      lift (ChatAnthropic (Config.model settings) (Config.api_key settings)
              (Config.temperature settings))
    else raise (RuntimeError
           "langchain-anthropic package is required for Anthropic provider")
  else
    if importable "langchain.chat_models" then
      do! logger_warning
            ("Using generic init_chat_model for provider '%s'. "
             ++ "Ensure the provider is supported by LangChain.")
            [ArgStr (Config.provider settings)] in
      lift (init_chat_model (Config.model settings)
              (Config.provider settings) (Config.temperature settings)
              (Config.api_key settings))
    else raise (RuntimeError
           ("Unsupported LLM provider '" ++ Config.provider settings
            ++ "'. " ++ "Install provider-specific LangChain integration.")).

End Providers.

Record LLMClient : Type := {
  chat_model : BaseChatModel;
  _chain : list (gmap string string) -> gmap string string -> outcome string
}.

(** [LLMClient.__init__]: the chain is built around the chat model. *)
Definition LLMClient_init (chat_model : BaseChatModel) : LLMClient :=
  {| chat_model := chat_model; _chain := respond chat_model |}.

(** [self._chain.invoke(prompt_inputs)]: one outbound call, recorded
    whether it returns or raises. *)
Definition chain_invoke (self : LLMClient) (prompt_inputs : gmap string string)
    : M process string :=
  fun p => (_chain self (calls p) prompt_inputs,
            Process (environ p) (stdout p) (log p)
              (calls p ++ [prompt_inputs])%list).

Definition nl : string := String (ascii_of_nat 10) EmptyString.

(** The loop [for severity in members: if severity.value == normalized:
    return severity], followed by [return default]. *)
Definition first_named (members : list Severity) (normalized : string)
    (default : Severity) : Severity :=
  List.fold_right
    (fun severity rest =>
       if String.eqb (severity_value severity) normalized
       then severity else rest)
    default members.

Definition _parse_severity (value : pyobj) (default : Severity)
    : outcome Severity :=
  if negb (truthy value) then Ok default
  else match value with
       | PyStr value =>
           let normalized := lower (strip value) in
           Ok (first_named Severity_members normalized default)
       | _ => Raise (AttributeError (type_name value) "strip")
       end.

(** [new_code or old_code or <empty string>] *)
Definition code_text (change : CodeChange.t) : string :=
  match py_or (py_or (of_opt (CodeChange.new_code change))
                     (of_opt (CodeChange.old_code change)))
              (PyStr EmptyString) with
  | PyStr text => text
  | _ => EmptyString
  end.

Definition fallback_suggestion : string :=
  "Review and update related documentation accordingly.".

(** The first half of [generate_issue], up to its local [prompt_inputs]:
    the request handed to the chain. *)
Definition prompt_inputs (candidate : DriftCandidate.t) : gmap string string :=
  let '(documentation_text, doc_changed) :=
    List.fold_left
      (fun '(documentation_text, doc_changed) ref =>
         (documentation_text ++
            [DocumentationReference.file_path ref +:+ " (changed="
             +:+ str_bool (DocumentationReference.changed ref) +:+ "):"
             +:+ nl +:+ DocumentationReference.snippet ref],
          doc_changed ++
            [if DocumentationReference.changed ref then "yes" else "no"])%list)
      (DriftCandidate.documentation candidate) ([], []) in
  let '(documentation_text, doc_changed) :=
    match documentation_text with
    | [] => (documentation_text ++ ["No related documentation found."],
             doc_changed ++ ["n/a"])%list
    | _ => (documentation_text, doc_changed)
    end in
  let change := DriftCandidate.change candidate in
  {[ "drift_type" := drift_type_value (DriftCandidate.drift_type candidate);
     "code_change" := CodeChange.summary change ++ nl ++ nl
                      ++ code_text change;
     "documentation" := join (nl ++ nl ++ "---" ++ nl ++ nl)
                          documentation_text;
     "doc_changed" := join ", " doc_changed;
     "candidate_description" := DriftCandidate.description candidate ]}.

Section Json.

(** [json.loads] on a string: the decoded value, or the exception
    raised. *)
Variable json_loads : string -> outcome pyobj.

(** The second half of [generate_issue]: the call, the fallback
    dictionary and the issue. *)
Definition generate_issue (self : LLMClient) (candidate : DriftCandidate.t)
    (fallback_severity : Severity) : M process DriftIssue.t :=
  let prompt_inputs := prompt_inputs candidate in
  let change := DriftCandidate.change candidate in
  let! data :=
    try_except
      (let! raw := chain_invoke self prompt_inputs in
       lift (json_loads raw))
      (fun exc =>
         do! logger_warning "LLM suggestion failed (%s). Using fallback."
               [ArgExn exc] in
         ret (PyDict
                {[ "summary" := PyStr (DriftCandidate.description candidate);
                   "severity" := PyStr (severity_value fallback_severity);
                   "suggestion" := PyStr fallback_suggestion;
                   "doc_excerpt" := PyNone ]})) in
  let! severity_field := lift (py_get data "severity") in
  let! severity := lift (_parse_severity severity_field fallback_severity) in
  let! suggestion_field := lift (py_get data "suggestion") in
  let suggestion :=
    py_or suggestion_field (PyStr (DriftCandidate.description candidate)) in
  let! summary_field := lift (py_get data "summary") in
  let summary :=
    py_or summary_field (PyStr (DriftCandidate.description candidate)) in
  let! doc_excerpt := lift (py_get data "doc_excerpt") in
  ret (DriftIssue.Build
         (DriftCandidate.drift_type candidate)
         severity
         (CodeChange.file_path change)
         summary
         suggestion
         (code_text change)
         doc_excerpt
         {[ "provider" := PyStr (class_name (chat_model self));
            "symbol" := of_opt (CodeChange.symbol change) ]}).

End Json.

End Llm.

(** ** [drift_detector/cli.py] *)

Module Cli.
Import Py Os Models.
Local Open Scope py_scope.

(** The [argparse.Namespace] that [build_parser] describes. *)
Record Namespace : Type := {
  repo : string;
  from_ref : option string;
  to_ref : option string;
  since : option string;
  branch : option string;
  output_format : option string;
  save_report : bool;
  report_path : option string;
  provider : option string;
  model : option string;
  api_key : option string;
  base_url : option string;
  temperature : option spec_float;
  severity_threshold : option string
}.

(** [if value: os.environ[key] = value] for an optional string argument. *)
Definition override_env (key : string) (value : option string)
    : M process unit :=
  match value with
  | Some text => if truthy (PyStr text) then setenv key text else ret tt
  | None => ret tt
  end.

(** [if value: use(value)] on a settings field. *)
Definition override (value : option string) (current : string) : string :=
  match value with
  | Some text => if truthy (PyStr text) then text else current
  | None => current
  end.

Definition _has_critical_issues (report : DriftReport.t) : bool :=
  List.existsb
    (fun issue => severity_eqb (DriftIssue.severity issue) CRITICAL)
    (DriftReport.issues report).

Section Collaborators.

(** What lies outside these modules: [argparse], [pathlib], [str] on a
    float, the [.env] file and [float], the chat-model integrations, the
    detector of [drift_analysis] and the renderer of [report]. *)
Variable parse_args : option (list string) -> outcome Namespace.
Variable resolve : string -> outcome string.
Variable str_float : spec_float -> string.
Variable dotenv_values : gmap string string.
Variable py_float : string -> outcome spec_float.
Variable importable : string -> bool.
Variable ChatOllama :
  string -> option string -> spec_float -> outcome Llm.BaseChatModel.
Variable ChatOpenAI :
  string -> option string -> spec_float -> option string ->
  outcome Llm.BaseChatModel.
Variable ChatAnthropic :
  string -> option string -> spec_float -> outcome Llm.BaseChatModel.
Variable init_chat_model :
  string -> string -> spec_float -> option string ->
  outcome Llm.BaseChatModel.
Variable detector_run :
  Config.Settings -> Llm.LLMClient -> M process DriftReport.t.
Variable render : string -> DriftReport.t -> outcome string.
Variable save : string -> DriftReport.t -> string -> outcome string.

Definition _ensure_env_overrides (args : Namespace) : M process unit :=
  do! override_env "LLM_PROVIDER" (provider args) in
  do! override_env "LLM_MODEL" (model args) in
  do! override_env "LLM_API_KEY" (api_key args) in
  do! override_env "LLM_BASE_URL" (base_url args) in
  do! match temperature args with
      | Some t => setenv "LLM_TEMPERATURE" (str_float t)
      | None => ret tt
      end in
  do! override_env "SEVERITY_THRESHOLD" (severity_threshold args) in
  do! override_env "OUTPUT_FORMAT" (output_format args) in
  override_env "REPORT_PATH" (report_path args).

(** [run_cli] up to the call of the detector: the settings in force and
    the report. *)
Definition analyse (argv : option (list string))
    : M process (Config.Settings * DriftReport.t) :=
  let! args := lift (parse_args argv) in
  let! repo_path := lift (resolve (repo args)) in
  do! _ensure_env_overrides args in
  let! settings :=
    Config.load_settings dotenv_values py_float repo_path
      (since args) (from_ref args) (to_ref args) (branch args) in
  let format := override (output_format args)
                  (Config.format (Config.output settings)) in
  let save_report := if save_report args then true
                     else Config.save_report (Config.output settings) in
  let! report_path :=
    match report_path args with
    | Some text => if truthy (PyStr text) then lift (resolve text)
                   else ret (Config.report_path (Config.output settings))
    | None => ret (Config.report_path (Config.output settings))
    end in
  let analysis := Config.analysis settings in
  let settings :=
    {| Config.repo_path := Config.repo_path settings;
       Config.llm := Config.llm settings;
       Config.analysis :=
         {| Config.severity_threshold :=
              override (severity_threshold args)
                (Config.severity_threshold analysis);
            Config.auto_ignore_private_functions :=
              Config.auto_ignore_private_functions analysis;
            Config.check_examples := Config.check_examples analysis;
            Config.check_inline_comments :=
              Config.check_inline_comments analysis |};
       Config.output :=
         {| Config.format := format; Config.save_report := save_report;
            Config.report_path := report_path |};
       Config.since := Config.since settings;
       Config.from_ref := Config.from_ref settings;
       Config.to_ref := Config.to_ref settings;
       Config.branch := Config.branch settings |} in
  let! chat_model :=
    Llm.create_chat_model importable ChatOllama ChatOpenAI ChatAnthropic
      init_chat_model (Config.llm settings) in
  let llm_client := Llm.LLMClient_init chat_model in
  let! report := detector_run settings llm_client in
  ret (settings, report).

(** [run_cli] from the report on: render, print, save, exit code. *)
Definition run_cli (argv : option (list string)) : M process Z :=
  let! (settings, report) := analyse argv in
  let! output := lift (render (Config.format (Config.output settings)) report) in
  do! print output in
  do! (if Config.save_report (Config.output settings) then
         let! saved_path :=
           lift (save (Config.format (Config.output settings)) report
                   (Config.report_path (Config.output settings))) in
         print (Llm.nl +:+ "Report saved to " +:+ saved_path)
       else ret tt) in
  if _has_critical_issues report then ret 1%Z else ret 0%Z.

End Collaborators.

End Cli.

(** ** A JSON decoder for concrete responses

    [json.loads] belongs to the Python library, and [generate_issue] is
    stated over any decoder. To run the model on the text of a concrete
    response, this decoder reads the fragment of JSON made of objects,
    arrays, strings without escape sequences, integers and the three
    literals, on which it builds the value [json.loads] builds; text outside
    the fragment is reported as [JSONDecodeError]. *)

Module Json.
Import Py.

Definition code (c : ascii) : N := N_of_ascii c.

(** The four JSON whitespace characters. *)
Definition is_ws (c : ascii) : bool :=
  let n := code c in ((n =? 32) || (n =? 9) || (n =? 10) || (n =? 13))%N.

Definition is_digit (c : ascii) : bool :=
  let n := code c in ((48 <=? n) && (n <=? 57))%N.

Fixpoint skip_ws (s : string) : string :=
  match s with
  | String c rest => if is_ws c then skip_ws rest else s
  | EmptyString => EmptyString
  end.

(** [expect word s]: [s] without its prefix [word]. *)
Fixpoint expect (word s : string) : option string :=
  match word, s with
  | EmptyString, _ => Some s
  | String a word', String b s' =>
      if Ascii.eqb a b then expect word' s' else None
  | _, EmptyString => None
  end.

(** The characters of a string literal after its opening quote, up to the
    closing one. *)
Fixpoint string_body (s : string) : option (string * string) :=
  match s with
  | EmptyString => None
  | String c rest =>
      if (code c =? 34)%N then Some (EmptyString, rest)
      else if ((code c =? 92) || (code c <? 32))%N then None
      else match string_body rest with
           | Some (text, rest') => Some (String c text, rest')
           | None => None
           end
  end.

Fixpoint digits (acc : Z) (s : string) : Z * string :=
  match s with
  | String c rest =>
      if is_digit c then digits (10 * acc + Z.of_N (code c - 48)) rest
      else (acc, s)
  | EmptyString => (acc, s)
  end.

(** An integer without sign; a fraction or an exponent after it is outside
    the fragment. *)
Definition natural (s : string) : option (Z * string) :=
  match s with
  | String c rest =>
      if is_digit c then
        let '(n, rest') :=
          if (code c =? 48)%N then (0%Z, rest) else digits 0 s in
        match rest' with
        | String d _ =>
            if ((code d =? 46) || (code d =? 101) || (code d =? 69))%N
            then None else Some (n, rest')
        | EmptyString => Some (n, rest')
        end
      else None
  | EmptyString => None
  end.

Fixpoint value (fuel : nat) (s : string) : option (pyobj * string) :=
  match fuel with
  | O => None
  | S fuel =>
      match skip_ws s with
      | EmptyString => None
      | String c rest =>
          let n := code c in
          if (n =? 110)%N then
            rest' ← expect "ull" rest; Some (PyNone, rest')
          else if (n =? 116)%N then
            rest' ← expect "rue" rest; Some (PyBool true, rest')
          else if (n =? 102)%N then
            rest' ← expect "alse" rest; Some (PyBool false, rest')
          else if (n =? 34)%N then
            '(text, rest') ← string_body rest; Some (PyStr text, rest')
          else if (n =? 45)%N then
            '(z, rest') ← natural rest; Some (PyInt (- z), rest')
          else if (n =? 91)%N then
            match skip_ws rest with
            | String d rest' =>
                if (code d =? 93)%N then Some (PyList [], rest')
                else elements fuel [] rest
            | EmptyString => None
            end
          else if (n =? 123)%N then
            match skip_ws rest with
            | String d rest' =>
                if (code d =? 125)%N then Some (PyDict ∅, rest')
                else members fuel ∅ rest
            | EmptyString => None
            end
          else
            '(z, rest') ← natural (String c rest); Some (PyInt z, rest')
      end
  end
with elements (fuel : nat) (acc : list pyobj) (s : string)
    : option (pyobj * string) :=
  match fuel with
  | O => None
  | S fuel =>
      '(v, rest) ← value fuel s;
      match skip_ws rest with
      | String c rest' =>
          if (code c =? 44)%N then elements fuel (acc ++ [v])%list rest'
          else if (code c =? 93)%N then Some (PyList (acc ++ [v])%list, rest')
          else None
      | EmptyString => None
      end
  end
with members (fuel : nat) (acc : gmap string pyobj) (s : string)
    : option (pyobj * string) :=
  match fuel with
  | O => None
  | S fuel =>
      match skip_ws s with
      | String q rest =>
          if (code q =? 34)%N then
            '(key, rest) ← string_body rest;
            match skip_ws rest with
            | String c rest =>
                if (code c =? 58)%N then
                  '(v, rest) ← value fuel rest;
                  match skip_ws rest with
                  | String c rest' =>
                      if (code c =? 44)%N
                      then members fuel (<[key := v]> acc) rest'
                      else if (code c =? 125)%N
                      then Some (PyDict (<[key := v]> acc), rest')
                      else None
                  | EmptyString => None
                  end
                else None
            | EmptyString => None
            end
          else None
      | EmptyString => None
      end
  end.

Definition loads (s : string) : outcome pyobj :=
  match value (S (String.length s)) s with
  | Some (v, rest) =>
      match skip_ws rest with
      | EmptyString => Ok v
      | _ => Raise (JSONDecodeError "Extra data")
      end
  | None => Raise (JSONDecodeError "Expecting value")
  end.

(** [quoted s] is [s] between double quotes. *)
Definition quoted (s : string) : string :=
  String (ascii_of_nat 34) s +:+ String (ascii_of_nat 34) EmptyString.

End Json.

(** ** The vocabulary of the specification *)

Module Spec.
Import Py Os Models.

(** The external call fails: the chain raises, or the text it returns is
    not parseable as JSON. *)
Definition call_fails (json_loads : string -> outcome pyobj)
    (self : Llm.LLMClient) (history : list (gmap string string))
    (request : gmap string string) : bool :=
  match Llm._chain self history request with
  | Raise _ => true
  | Ok raw => match json_loads raw with
              | Raise _ => true
              | Ok _ => false
              end
  end.

(** The external call succeeds with a JSON value. *)
Definition call_yields (json_loads : string -> outcome pyobj)
    (self : Llm.LLMClient) (history : list (gmap string string))
    (request : gmap string string) (data : pyobj) : Prop :=
  exists raw, Llm._chain self history request = Ok raw
              /\ json_loads raw = Ok data.

(** The deterministic local issue of section 4.5: the candidate's
    description, the default severity, the generic instruction and no
    documentation excerpt. *)
Definition local_fallback_issue (self : Llm.LLMClient)
    (candidate : DriftCandidate.t) (fallback_severity : Severity)
    : DriftIssue.t :=
  let change := DriftCandidate.change candidate in
  {| DriftIssue.drift_type := DriftCandidate.drift_type candidate;
     DriftIssue.severity := fallback_severity;
     DriftIssue.file_path := CodeChange.file_path change;
     DriftIssue.summary := PyStr (DriftCandidate.description candidate);
     DriftIssue.suggestion :=
       PyStr "Review and update related documentation accordingly.";
     DriftIssue.code_snippet := Llm.code_text change;
     DriftIssue.documentation_snippet := PyNone;
     DriftIssue.metadata :=
       {[ "provider" := PyStr (Llm.class_name (Llm.chat_model self));
          "symbol" := of_opt (CodeChange.symbol change) ]} |}.

(** The issue [generate_issue] builds from a response object [d] once the
    severity is settled: each field is read from the object, and a missing
    or falsy summary or suggestion is replaced by the description. *)
Definition issue_of_object (self : Llm.LLMClient)
    (candidate : DriftCandidate.t) (severity : Severity)
    (d : gmap string pyobj) : DriftIssue.t :=
  let change := DriftCandidate.change candidate in
  let description := PyStr (DriftCandidate.description candidate) in
  {| DriftIssue.drift_type := DriftCandidate.drift_type candidate;
     DriftIssue.severity := severity;
     DriftIssue.file_path := CodeChange.file_path change;
     DriftIssue.summary := py_or (default PyNone (d !! "summary")) description;
     DriftIssue.suggestion :=
       py_or (default PyNone (d !! "suggestion")) description;
     DriftIssue.code_snippet := Llm.code_text change;
     DriftIssue.documentation_snippet := default PyNone (d !! "doc_excerpt");
     DriftIssue.metadata :=
       {[ "provider" := PyStr (Llm.class_name (Llm.chat_model self));
          "symbol" := of_opt (CodeChange.symbol change) ]} |}.

(** The state after one request: the request is appended to the calls. *)
Definition after_call (p : process) (request : gmap string string) : process :=
  Process (environ p) (stdout p) (log p) (calls p ++ [request])%list.

(** An optional text is present when it is there and holds characters. *)
Definition present (text : option string) : Prop :=
  exists c rest, text = Some (String c rest).

(** A required field is missing from a response object. *)
Definition missing_required_field (d : gmap string pyobj) : Prop :=
  d !! "summary" = None \/ d !! "severity" = None \/ d !! "suggestion" = None.

(** How a boolean flag reads its environment variable: true exactly for
    the four words, whatever the default; the default when unset. *)
Definition flag_reads (value : option string) (default result : bool) : Prop :=
  match value with
  | Some text =>
      result = true <-> In (strip (lower text)) ["1"; "true"; "yes"; "on"]
  | None => result = default
  end.

End Spec.

(** ** Concrete candidates, clients and responses *)

Module Samples.
Import Py Os Models.

Definition fetch_change : CodeChange.t :=
  {| CodeChange.file_path := "src/api.py";
     CodeChange.symbol := Some "fetch";
     CodeChange.change_kind := MODIFIED;
     CodeChange.old_code := Some "def fetch(url):";
     CodeChange.new_code := Some "def fetch(url, timeout):";
     CodeChange.summary := "Modified function fetch" |}.

Definition fetch_candidate : DriftCandidate.t :=
  {| DriftCandidate.change := fetch_change;
     DriftCandidate.documentation :=
       [ {| DocumentationReference.file_path := "docs/api.md";
            DocumentationReference.snippet := "fetch(url) downloads a page";
            DocumentationReference.changed := false |} ];
     DriftCandidate.drift_type := SIGNATURE_CHANGE;
     DriftCandidate.description :=
       "Signature of fetch changed but docs/api.md did not" |}.

(** A change whose new code is the empty text. *)
Definition emptied_candidate : DriftCandidate.t :=
  {| DriftCandidate.change :=
       {| CodeChange.file_path := "src/api.py";
          CodeChange.symbol := Some "fetch";
          CodeChange.change_kind := REMOVED;
          CodeChange.old_code := Some "def fetch(url):";
          CodeChange.new_code := Some EmptyString;
          CodeChange.summary := "Removed function fetch" |};
     DriftCandidate.documentation := [];
     DriftCandidate.drift_type := REMOVED_WITHOUT_DOC_UPDATE;
     DriftCandidate.description := "fetch was removed" |}.

(** A chat model whose chain answers every request with [answer]. *)
Definition constant_model (answer : outcome string) : Llm.BaseChatModel :=
  {| Llm.class_name := "ChatOllama"; Llm.respond := fun _ _ => answer |}.

Definition client_answering (answer : outcome string) : Llm.LLMClient :=
  Llm.LLMClient_init (constant_model answer).

Definition unreachable : outcome string :=
  Raise (Other "ConnectionError" "connection refused").

Definition idle : process :=
  {| environ := ∅; stdout := []; log := []; calls := [] |}.

(** The text [{"summary": "Docs lag", "severity": "low"}]: an object with
    no suggestion. *)
Definition response_without_suggestion : string :=
  "{" +:+ Json.quoted "summary" +:+ ": " +:+ Json.quoted "Docs lag" +:+ ", "
  +:+ Json.quoted "severity" +:+ ": " +:+ Json.quoted "low" +:+ "}".

(** The text of an object that spells out, for [fetch_candidate] and the
    default severity medium, the very values of the local fallback. *)
Definition response_like_fallback : string :=
  "{" +:+ Json.quoted "summary" +:+ ": "
  +:+ Json.quoted "Signature of fetch changed but docs/api.md did not" +:+ ", "
  +:+ Json.quoted "severity" +:+ ": " +:+ Json.quoted "medium" +:+ ", "
  +:+ Json.quoted "suggestion" +:+ ": "
  +:+ Json.quoted "Review and update related documentation accordingly."
  +:+ ", " +:+ Json.quoted "doc_excerpt" +:+ ": null}".

(** The text [{"summary": "Docs lag", "severity": "Urgent!", "suggestion":
    "Mention the timeout"}]. *)
Definition response_with_unknown_severity : string :=
  "{" +:+ Json.quoted "summary" +:+ ": " +:+ Json.quoted "Docs lag" +:+ ", "
  +:+ Json.quoted "severity" +:+ ": " +:+ Json.quoted "Urgent!" +:+ ", "
  +:+ Json.quoted "suggestion" +:+ ": " +:+ Json.quoted "Mention the timeout"
  +:+ "}".

(** The arguments of a bare invocation. *)
Definition bare_arguments : Cli.Namespace :=
  {| Cli.repo := "."; Cli.from_ref := None; Cli.to_ref := None;
     Cli.since := Some "HEAD~1"; Cli.branch := None;
     Cli.output_format := None; Cli.save_report := false;
     Cli.report_path := None; Cli.provider := None; Cli.model := None;
     Cli.api_key := None; Cli.base_url := None; Cli.temperature := None;
     Cli.severity_threshold := None |}.

Definition issue_of_severity (severity : Severity) : DriftIssue.t :=
  {| DriftIssue.drift_type := REMOVED_WITHOUT_DOC_UPDATE;
     DriftIssue.severity := severity;
     DriftIssue.file_path := "src/api.py";
     DriftIssue.summary := PyStr "fetch was removed";
     DriftIssue.suggestion := PyStr "Drop fetch from docs/api.md";
     DriftIssue.code_snippet := "def fetch(url):";
     DriftIssue.documentation_snippet := PyNone;
     DriftIssue.metadata := ∅ |}.

Definition report_of (severities : list Severity) : DriftReport.t :=
  {| DriftReport.issues := List.map issue_of_severity severities;
     DriftReport.metadata := ∅ |}.

(** Collaborators that all succeed: the arguments are the bare ones, paths
    resolve to themselves, every integration is installed and builds a
    model that cannot be reached, and the renderer returns one line. *)
Definition parse_bare (_ : option (list string)) : outcome Cli.Namespace :=
  Ok bare_arguments.
Definition resolve_same (path : string) : outcome string := Ok path.
Definition str_zero (_ : spec_float) : string := "0.0".
Definition float_zero (_ : string) : outcome spec_float :=
  Ok (S754_zero false).
Definition all_importable (_ : string) : bool := true.
Definition build3 (_ : string) (_ : option string) (_ : spec_float)
    : outcome Llm.BaseChatModel := Ok (constant_model unreachable).
Definition build4 (_ : string) (_ : option string) (_ : spec_float)
    (_ : option string) : outcome Llm.BaseChatModel :=
  Ok (constant_model unreachable).
Definition build_generic (_ _ : string) (_ : spec_float) (_ : option string)
    : outcome Llm.BaseChatModel := Ok (constant_model unreachable).
Definition detector_returning (report : DriftReport.t)
    (_ : Config.Settings) (_ : Llm.LLMClient) : M process DriftReport.t :=
  ret report.
Definition render_line (_ : string) (_ : DriftReport.t) : outcome string :=
  Ok "rendered report".
Definition save_at (_ : string) (_ : DriftReport.t) (path : string)
    : outcome string := Ok path.

(** The text [{"summary": "Docs lag", "severity": 5, "suggestion":
    "Mention the timeout"}]: the severity is a number. *)
Definition response_with_numeric_severity : string :=
  "{" +:+ Json.quoted "summary" +:+ ": " +:+ Json.quoted "Docs lag" +:+ ", "
  +:+ Json.quoted "severity" +:+ ": 5, "
  +:+ Json.quoted "suggestion" +:+ ": " +:+ Json.quoted "Mention the timeout"
  +:+ "}".

End Samples.

(** ** Further vocabulary: the effects on the process *)

Module Terms.
Import Py Os Models.

(** The process with its environment changed by [f] and nothing else. *)
Definition with_environ (f : gmap string string -> gmap string string)
    (p : process) : process :=
  Process (f (environ p)) (stdout p) (log p) (calls p).

(** The environment after [if value: os.environ[key] = value]. *)
Definition set_if (key : string) (value : option string)
    (env : gmap string string) : gmap string string :=
  match value with
  | Some (String c rest) => <[key := String c rest]> env
  | _ => env
  end.

(** The environment after [_ensure_env_overrides]: eight conditional
    writes, in the order of the source. *)
Definition overridden (str_float : spec_float -> string)
    (args : Cli.Namespace) (env : gmap string string) : gmap string string :=
  set_if "REPORT_PATH" (Cli.report_path args)
    (set_if "OUTPUT_FORMAT" (Cli.output_format args)
       (set_if "SEVERITY_THRESHOLD" (Cli.severity_threshold args)
          (match Cli.temperature args with
           | Some t => insert "LLM_TEMPERATURE" (str_float t)
           | None => fun env => env
           end
             (set_if "LLM_BASE_URL" (Cli.base_url args)
                (set_if "LLM_API_KEY" (Cli.api_key args)
                   (set_if "LLM_MODEL" (Cli.model args)
                      (set_if "LLM_PROVIDER" (Cli.provider args) env))))))).

(** What an optional text argument makes of a current value: itself when
    it holds characters, the current value otherwise. *)
Definition given_or {A : Type} (wrap : string -> A) (value : option string)
    (current : A) : A :=
  match value with
  | Some (String c rest) => wrap (String c rest)
  | _ => current
  end.

(** The variables a command line may write. *)
Definition override_keys : list string :=
  ["LLM_PROVIDER"; "LLM_MODEL"; "LLM_API_KEY"; "LLM_BASE_URL";
   "LLM_TEMPERATURE"; "SEVERITY_THRESHOLD"; "OUTPUT_FORMAT"; "REPORT_PATH"].

(** The value a settings field takes from the environment: the variable of
    the process if set, else the one of the [.env] file, else the
    fallback. *)
Definition env_or_dotenv (environ dotenv_values : gmap string string)
    (key : string) : option string :=
  match environ !! key with
  | Some text => Some text
  | None => dotenv_values !! key
  end.

(** The module a provider name needs. *)
Definition integration_module (provider : string) : string :=
  let name := lower provider in
  if String.eqb name "ollama" then "langchain_community.chat_models"
  else if String.eqb name "openai" then "langchain_openai"
  else if String.eqb name "anthropic" then "langchain_anthropic"
  else "langchain.chat_models".

Definition named_provider (provider : string) : bool :=
  let name := lower provider in
  String.eqb name "ollama" || String.eqb name "openai"
  || String.eqb name "anthropic".


(** One reference as the request shows it, and its changed mark. *)
Definition reference_text (ref : DocumentationReference.t) : string :=
  DocumentationReference.file_path ref +:+ " (changed="
  +:+ str_bool (DocumentationReference.changed ref) +:+ "):"
  +:+ Llm.nl +:+ DocumentationReference.snippet ref.

Definition reference_mark (ref : DocumentationReference.t) : string :=
  if DocumentationReference.changed ref then "yes" else "no".

(** The separator between references: a rule between blank lines. *)
Definition rule : string :=
  Llm.nl +:+ Llm.nl +:+ "---" +:+ Llm.nl +:+ Llm.nl.

End Terms.

(** ** Further concrete inputs *)

Module MoreSamples.
Import Py Os Models.

(** A command line that sets most options; the base URL is given empty. *)
Definition full_arguments : Cli.Namespace :=
  {| Cli.repo := "."; Cli.from_ref := Some "v1"; Cli.to_ref := Some "v2";
     Cli.since := None; Cli.branch := Some "main";
     Cli.output_format := Some "json"; Cli.save_report := true;
     Cli.report_path := Some "out"; Cli.provider := Some "OpenAI";
     Cli.model := Some "gpt-4o"; Cli.api_key := None;
     Cli.base_url := Some EmptyString;
     Cli.temperature := Some (S754_zero false);
     Cli.severity_threshold := Some "critical" |}.

Definition parse_full (_ : option (list string)) : outcome Cli.Namespace :=
  Ok full_arguments.

(** A process whose environment already names a provider, a base URL and a
    flag. *)
Definition configured : process :=
  {| environ := {[ "LLM_PROVIDER" := "ollama";
                   "LLM_BASE_URL" := "http://localhost:11434";
                   "CHECK_EXAMPLES" := "off";
                   "SAVE_REPORT" := "0" ]};
     stdout := []; log := []; calls := [] |}.

Definition resolve_under_root (path : string) : outcome string :=
  Ok ("/work/" +:+ path).

Definition save_refused (_ : string) (_ : DriftReport.t) (_ : string)
    : outcome string := Raise (Other "PermissionError" "read-only directory").


(** Settings that spell the provider with capitals. *)
Definition openai_settings : Config.LLMSettings :=
  {| Config.provider := "OpenAI"; Config.model := "gpt-4o";
     Config.base_url := None; Config.api_key := Some "sk-test";
     Config.temperature := S754_zero false |}.

Definition nothing_importable (_ : string) : bool := false.

(** The issues a threshold of medium keeps. *)
Definition medium_or_more (issue : DriftIssue.t) : bool :=
  negb (severity_eqb (DriftIssue.severity issue) LOW).

End MoreSamples.

(** * Properties *)

(** ** Strings *)

Module PyFacts.
Import Py.

Lemma is_space_lower_char (c : ascii) : is_space (lower_char c) = is_space c.
Proof. destruct c as [[] [] [] [] [] [] [] []]; reflexivity. Qed.

Lemma lstrip_lower (s : string) : lstrip (lower s) = lower (lstrip s).
Proof.
  induction s as [|c s IH]; simpl; [reflexivity|].
  rewrite is_space_lower_char. destruct (is_space c); [exact IH | reflexivity].
Qed.

Lemma rstrip_lower (s : string) : rstrip (lower s) = lower (rstrip s).
Proof.
  induction s as [|c s IH]; simpl; [reflexivity|].
  rewrite IH, is_space_lower_char.
  destruct (rstrip s); simpl; [destruct (is_space c)|]; reflexivity.
Qed.

(** Lowercasing and stripping can be done in either order. *)
Lemma strip_lower (s : string) : strip (lower s) = lower (strip s).
Proof. unfold strip. now rewrite lstrip_lower, rstrip_lower. Qed.

End PyFacts.

(** ** The flags of [config.py] *)

Module ConfigSpec.
Import Py Os Config.

Lemma true_words_list (text : string) :
  text ∈ true_words <-> In text ["1"; "true"; "yes"; "on"].
Proof.
  unfold true_words. rewrite !elem_of_union, !elem_of_singleton. simpl.
  intuition congruence.
Qed.

Lemma env_bool_reads (value : option string) (default : bool) :
  Spec.flag_reads value default (_env_bool value default).
Proof.
  destruct value as [text|]; simpl; [|reflexivity].
  rewrite bool_decide_eq_true, PyFacts.strip_lower. apply true_words_list.
Qed.

(** C10. A flag variable that is set reads as true exactly when its text,
    lowercased and stripped of surrounding whitespace, is one of 1, true,
    yes, on; the default is used only when the variable is unset, so that
    [enabled] reads as false even where the default is true. This is so
    for [_env_bool] and for the four flags [load_settings] builds with it:
    ignore-private, check-examples, check-inline-comments and save-report
    (when [load_settings] raises, it is [float] that raised, on the
    temperature). *)
Theorem env_bool_policy_flags
    (dotenv_values : gmap string string)
    (py_float : string -> outcome spec_float)
    (repo_path : string) (since from_ref to_ref branch : option string)
    (p : process) :
  (forall text default,
     _env_bool (Some text) default = true
     <-> In (strip (lower text)) ["1"; "true"; "yes"; "on"])
  /\ (forall default, _env_bool None default = default)
  /\ _env_bool (Some "enabled") true = false
  /\ let env := environ p ∪ dotenv_values in
     match fst (load_settings dotenv_values py_float repo_path
                  since from_ref to_ref branch p) with
     | Ok settings =>
         Spec.flag_reads (env !! "AUTO_IGNORE_PRIVATE_FUNCTIONS") true
           (auto_ignore_private_functions (analysis settings))
         /\ Spec.flag_reads (env !! "CHECK_EXAMPLES") true
              (check_examples (analysis settings))
         /\ Spec.flag_reads (env !! "CHECK_INLINE_COMMENTS") true
              (check_inline_comments (analysis settings))
         /\ Spec.flag_reads (env !! "SAVE_REPORT") false
              (save_report (output settings))
     | Raise e => py_float (default "0" (env !! "LLM_TEMPERATURE")) = Raise e
     end.
Proof.
  split; [intros text default; exact (env_bool_reads (Some text) default)|].
  split; [reflexivity|]. split; [reflexivity|].
  unfold load_settings, load_dotenv, set_environ, modify, getenv, getenv_or,
    bind, lift, ret. simpl.
  destruct (py_float _) as [t|e]; simpl; [|reflexivity].
  repeat split; apply env_bool_reads.
Qed.

Lemma env_bool_policy_flags_witness :
  _env_bool (Some " Yes ") false = true
  /\ match fst (load_settings ∅ Samples.float_zero "." None None None None
                  (Process {[ "CHECK_EXAMPLES" := "enabled";
                              "SAVE_REPORT" := "ON" ]} [] [] [])) with
     | Ok settings =>
         check_examples (analysis settings) = false
         /\ save_report (output settings) = true
         /\ check_inline_comments (analysis settings) = true
     | Raise _ => False
     end.
Proof.
  destruct (env_bool_policy_flags ∅ Samples.float_zero "." None None None None
              (Process {[ "CHECK_EXAMPLES" := "enabled";
                          "SAVE_REPORT" := "ON" ]} [] [] []))
    as (Hset & _ & _ & Hflags).
  split; [apply Hset; vm_compute; tauto|].
  cbv zeta in Hflags.
  destruct (fst (load_settings _ _ _ _ _ _ _ _)) as [settings|e];
    [|vm_compute in Hflags; discriminate Hflags].
  destruct Hflags as (_ & Hexamples & Hinline & Hsave).
  match type of Hexamples with Spec.flag_reads ?v _ _ =>
    replace v with (Some "enabled") in Hexamples by (vm_compute; reflexivity)
  end.
  match type of Hinline with Spec.flag_reads ?v _ _ =>
    replace v with (@None string) in Hinline by (vm_compute; reflexivity)
  end.
  match type of Hsave with Spec.flag_reads ?v _ _ =>
    replace v with (Some "ON") in Hsave by (vm_compute; reflexivity)
  end.
  cbn [Spec.flag_reads] in Hexamples, Hinline, Hsave.
  split; [|split; [apply Hsave; vm_compute; tauto | exact Hinline]].
  destruct (check_examples (analysis settings)); [|reflexivity].
  destruct Hexamples as [Habsurd _]. specialize (Habsurd eq_refl).
  vm_compute in Habsurd.
  destruct Habsurd as [H|[H|[H|[H|[]]]]]; discriminate H.
Defined.

End ConfigSpec.

(** ** The suggestion boundary of [llm.py] *)

Module LlmFacts.
Import Py Os Models Llm.

(** The identifier of a severity parses back to that severity. *)
Lemma fallback_severity_parses (fb : Severity) :
  _parse_severity (PyStr (severity_value fb)) fb = Ok fb.
Proof. destruct fb; reflexivity. Qed.

Lemma severity_value_inj (a b : Severity) :
  severity_value a = severity_value b -> a = b.
Proof. destruct a, b; (reflexivity || discriminate). Qed.

(** The loop returns the member that carries the name, in whatever order
    the enumeration lists its members: the order in which [models.py]
    declares them does not matter. *)
Lemma first_named_any_order (members : list Severity) (normalized : string)
    (default : Severity) :
  (forall severity, In severity members) ->
  first_named members normalized default
  = first_named Severity_members normalized default.
Proof.
  intros Hall.
  assert (Hfound : forall sev ms, In sev ms ->
            severity_value sev = normalized ->
            first_named ms normalized default = sev).
  { intros sev ms. induction ms as [|m ms IH]; intros Hin Hname; [easy|].
    cbn. destruct (String.eqb_spec (severity_value m) normalized) as [Hm|Hm].
    - apply severity_value_inj. congruence.
    - destruct Hin as [->|Hin]; [contradiction | now apply IH]. }
  assert (Hnone : forall ms,
            (forall sev, severity_value sev <> normalized) ->
            first_named ms normalized default = default).
  { intros ms Hno. induction ms as [|m ms IH]; [reflexivity|]. cbn.
    destruct (String.eqb_spec (severity_value m) normalized) as [Hm|_];
      [now destruct (Hno m) | exact IH]. }
  destruct (String.eqb_spec (severity_value LOW) normalized) as [Hl|Hl];
    [rewrite !(Hfound LOW); auto; cbn; tauto|].
  destruct (String.eqb_spec (severity_value MEDIUM) normalized) as [Hm|Hm];
    [rewrite !(Hfound MEDIUM); auto; cbn; tauto|].
  destruct (String.eqb_spec (severity_value CRITICAL) normalized) as [Hc|Hc];
    [rewrite !(Hfound CRITICAL); auto; cbn; tauto|].
  rewrite !Hnone; [reflexivity| |]; intros []; assumption.
Qed.

(** [_parse_severity] finds the member named by the normalized text. *)
Lemma parse_severity_named (text : string) (default sev : Severity) :
  lower (strip text) = severity_value sev ->
  _parse_severity (PyStr text) default = Ok sev.
Proof.
  intros Hname. unfold _parse_severity.
  destruct text as [|c text]; [destruct sev; discriminate Hname|].
  cbn [truthy negb]. rewrite Hname. destruct sev; reflexivity.
Qed.

Lemma parse_severity_unnamed (text : string) (default : Severity) :
  ~ In (lower (strip text)) ["low"; "medium"; "critical"] ->
  _parse_severity (PyStr text) default = Ok default.
Proof.
  intros Hnot. unfold _parse_severity.
  destruct text as [|c text]; [reflexivity|]. cbn [truthy negb].
  f_equal. unfold first_named, Severity_members.
  cbn [List.fold_right severity_value].
  repeat match goal with
  | |- context [String.eqb ?a ?b] =>
      destruct (String.eqb_spec a b) as [Heq|_];
      [exfalso; apply Hnot; rewrite <- Heq; simpl; tauto|]
  end.
  reflexivity.
Qed.

(** Names are read loosely: case and surrounding blanks do not count. *)
Lemma parse_severity_reads_loosely :
  _parse_severity (PyStr " Critical ") LOW = Ok CRITICAL.
Proof. reflexivity. Qed.

(** An empty new code is passed over like a missing one. *)
Lemma empty_new_code_is_passed_over :
  code_text (DriftCandidate.change Samples.emptied_candidate)
  = "def fetch(url):".
Proof. reflexivity. Qed.

Lemma parse_severity_optional_text (value : option string) (default : Severity) :
  exists sev, _parse_severity (of_opt value) default = Ok sev.
Proof.
  destruct value as [[|c text]|]; simpl; eauto.
Qed.

Lemma fallback_data_lookups (summary severity suggestion excerpt : pyobj) :
  let data : gmap string pyobj :=
    {[ "summary" := summary; "severity" := severity;
       "suggestion" := suggestion; "doc_excerpt" := excerpt ]} in
  data !! "summary" = Some summary /\ data !! "severity" = Some severity
  /\ data !! "suggestion" = Some suggestion
  /\ data !! "doc_excerpt" = Some excerpt.
Proof. repeat split; reflexivity. Qed.

Ltac run_generate_issue :=
  unfold generate_issue, try_except, chain_invoke, logger_warning, modify,
    bind, lift, ret.

Section Decoder.

Variable json_loads : string -> outcome pyobj.

(** After a failed call the issue is the local fallback; one request was
    sent and one warning logged. *)
Lemma generate_issue_after_failure (self : LLMClient)
    (candidate : DriftCandidate.t) (fb : Severity) (p : process) :
  Spec.call_fails json_loads self (calls p) (prompt_inputs candidate) = true ->
  exists exc,
    generate_issue json_loads self candidate fb p
    = (Ok (Spec.local_fallback_issue self candidate fb),
       Process (environ p) (stdout p)
         (log p ++ [Warning "LLM suggestion failed (%s). Using fallback."
                      [ArgExn exc]])%list
         (calls p ++ [prompt_inputs candidate])%list).
Proof.
  unfold Spec.call_fails. intros Hfail. run_generate_issue.
  destruct (_chain self (calls p) (prompt_inputs candidate)) as [raw|exc];
    [destruct (json_loads raw) as [data|exc]; [discriminate Hfail|]|];
    exists exc; cbn -[prompt_inputs];
    destruct (fallback_data_lookups
                (PyStr (DriftCandidate.description candidate))
                (PyStr (severity_value fb)) (PyStr fallback_suggestion)
                PyNone) as (-> & -> & -> & ->);
    cbn [default id]; rewrite fallback_severity_parses;
    unfold py_or, Spec.local_fallback_issue;
    destruct (DriftCandidate.description candidate); reflexivity.
Qed.

(** After a response that decodes to an object, the issue is read from
    the object, unless [_parse_severity] raises on its severity entry. *)
Lemma generate_issue_of_object (self : LLMClient)
    (candidate : DriftCandidate.t) (fb : Severity) (p : process)
    (d : gmap string pyobj) :
  Spec.call_yields json_loads self (calls p) (prompt_inputs candidate)
    (PyDict d) ->
  generate_issue json_loads self candidate fb p
  = (match _parse_severity (default PyNone (d !! "severity")) fb with
     | Ok severity => Ok (Spec.issue_of_object self candidate severity d)
     | Raise exc => Raise exc
     end,
     Spec.after_call p (prompt_inputs candidate)).
Proof.
  intros (raw & Hraw & Hdata). run_generate_issue.
  rewrite Hraw, Hdata. cbn -[prompt_inputs].
  destruct (_parse_severity _ fb); reflexivity.
Qed.

(** After a response that decodes to anything but an object, the first
    [data.get] raises, outside the [try]. *)
Lemma generate_issue_of_non_object (self : LLMClient)
    (candidate : DriftCandidate.t) (fb : Severity) (p : process)
    (data : pyobj) :
  Spec.call_yields json_loads self (calls p) (prompt_inputs candidate) data ->
  (forall d, data <> PyDict d) ->
  generate_issue json_loads self candidate fb p
  = (Raise (AttributeError (type_name data) "get"),
     Spec.after_call p (prompt_inputs candidate)).
Proof.
  intros (raw & Hraw & Hdata) Hshape. run_generate_issue.
  rewrite Hraw, Hdata. cbn -[prompt_inputs].
  destruct data; try reflexivity. now destruct (Hshape d).
Qed.

(** Whatever the chain and the decoder do, one request is recorded. *)
Lemma calls_after_generate_issue (self : LLMClient)
    (candidate : DriftCandidate.t) (fb : Severity) (p : process) :
  calls (snd (generate_issue json_loads self candidate fb p))
  = (calls p ++ [prompt_inputs candidate])%list.
Proof.
  run_generate_issue.
  destruct (_chain self (calls p) (prompt_inputs candidate)) as [raw|exc];
    [destruct (json_loads raw) as [data|exc]|]; cbn -[prompt_inputs];
    repeat match goal with
    | |- context [match ?x with Ok _ => _ | Raise _ => _ end] =>
        destruct x; cbn -[prompt_inputs]
    end; reflexivity.
Qed.

End Decoder.

End LlmFacts.

Module LlmSpec.
Import Py Os Models Llm.

(** C2. When the external call fails (the chain raises, or its text is not
    parseable as JSON), [generate_issue] returns the local fallback issue:
    its summary is the candidate's description, its severity the fallback
    severity supplied, its suggestion the generic instruction to review and
    update the documentation, and it has no documentation snippet. *)
Theorem failed_call_gives_fallback
    (json_loads : string -> outcome pyobj) (self : LLMClient)
    (candidate : DriftCandidate.t) (fallback_severity : Severity)
    (p : process) :
  Spec.call_fails json_loads self (calls p) (prompt_inputs candidate) = true ->
  exists issue,
    fst (generate_issue json_loads self candidate fallback_severity p)
    = Ok issue
    /\ issue = Spec.local_fallback_issue self candidate fallback_severity
    /\ DriftIssue.summary issue = PyStr (DriftCandidate.description candidate)
    /\ DriftIssue.severity issue = fallback_severity
    /\ DriftIssue.suggestion issue
       = PyStr "Review and update related documentation accordingly."
    /\ DriftIssue.documentation_snippet issue = PyNone.
Proof.
  intros Hfail.
  destruct (LlmFacts.generate_issue_after_failure json_loads self candidate
              fallback_severity p Hfail) as [exc Hrun].
  rewrite Hrun. eexists. split; [reflexivity|]. repeat split.
Qed.

Lemma failed_call_gives_fallback_witness :
  Spec.call_fails Json.loads (Samples.client_answering (Ok "no idea, sorry"))
    (calls Samples.idle) (prompt_inputs Samples.fetch_candidate) = true
  /\ exists issue,
       fst (generate_issue Json.loads
              (Samples.client_answering (Ok "no idea, sorry"))
              Samples.fetch_candidate MEDIUM Samples.idle) = Ok issue
       /\ issue = Spec.local_fallback_issue
                    (Samples.client_answering (Ok "no idea, sorry"))
                    Samples.fetch_candidate MEDIUM
       /\ DriftIssue.summary issue
          = PyStr "Signature of fetch changed but docs/api.md did not"
       /\ DriftIssue.severity issue = MEDIUM
       /\ DriftIssue.suggestion issue
          = PyStr "Review and update related documentation accordingly."
       /\ DriftIssue.documentation_snippet issue = PyNone.
Proof.
  split; [reflexivity|].
  apply (failed_call_gives_fallback Json.loads
           (Samples.client_answering (Ok "no idea, sorry"))
           Samples.fetch_candidate MEDIUM Samples.idle).
  reflexivity.
Defined.

(** C4. With a capability that always fails and a fixed fallback severity,
    two invocations of [generate_issue] on one candidate produce the same
    issue, every field included: the second invocation of a run, an
    invocation in any other state of the process, and an invocation through
    any other client of the same chat-model class that always fails in its
    own way. *)
Theorem fallback_is_deterministic
    (json_loads : string -> outcome pyobj) (self : LLMClient)
    (candidate : DriftCandidate.t) (fallback_severity : Severity)
    (p : process) :
  (forall history request,
     Spec.call_fails json_loads self history request = true) ->
  exists issue,
    fst (generate_issue json_loads self candidate fallback_severity p)
    = Ok issue
    /\ fst (generate_issue json_loads self candidate fallback_severity
              (snd (generate_issue json_loads self candidate
                      fallback_severity p)))
       = Ok issue
    /\ (forall q,
          fst (generate_issue json_loads self candidate fallback_severity q)
          = Ok issue)
    /\ (forall other q,
          class_name (chat_model other) = class_name (chat_model self) ->
          (forall history request,
             Spec.call_fails json_loads other history request = true) ->
          fst (generate_issue json_loads other candidate fallback_severity q)
          = Ok issue).
Proof.
  intros Hfails.
  assert (Hany : forall other q,
    (forall history request,
       Spec.call_fails json_loads other history request = true) ->
    fst (generate_issue json_loads other candidate fallback_severity q)
    = Ok (Spec.local_fallback_issue other candidate fallback_severity)).
  { intros other q Hother.
    destruct (LlmFacts.generate_issue_after_failure json_loads other candidate
                fallback_severity q (Hother _ _)) as [exc Hrun].
    now rewrite Hrun. }
  exists (Spec.local_fallback_issue self candidate fallback_severity).
  split; [now apply Hany|]. split; [now apply Hany|].
  split; [intros q; now apply Hany|].
  intros other q Hclass Hother. rewrite (Hany other q Hother).
  unfold Spec.local_fallback_issue. now rewrite Hclass.
Qed.

Lemma fallback_is_deterministic_witness :
  (forall history request,
     Spec.call_fails Json.loads (Samples.client_answering Samples.unreachable)
       history request = true)
  /\ exists issue,
       fst (generate_issue Json.loads
              (Samples.client_answering Samples.unreachable)
              Samples.fetch_candidate MEDIUM Samples.idle) = Ok issue
       /\ fst (generate_issue Json.loads
                 (Samples.client_answering Samples.unreachable)
                 Samples.fetch_candidate MEDIUM
                 (snd (generate_issue Json.loads
                         (Samples.client_answering Samples.unreachable)
                         Samples.fetch_candidate MEDIUM Samples.idle)))
          = Ok issue
       /\ fst (generate_issue Json.loads
                 (Samples.client_answering (Ok "no idea, sorry"))
                 Samples.fetch_candidate MEDIUM Samples.idle)
          = Ok issue.
Proof.
  split; [intros history request; reflexivity|].
  destruct (fallback_is_deterministic Json.loads
              (Samples.client_answering Samples.unreachable)
              Samples.fetch_candidate MEDIUM Samples.idle)
    as (issue & Hfirst & Hsecond & _ & Hother).
  - intros history request. reflexivity.
  - exists issue. split; [exact Hfirst|]. split; [exact Hsecond|].
    apply Hother; [reflexivity|]. intros history request. reflexivity.
Defined.

(** C9. One invocation of [generate_issue] sends exactly one request to the
    external capability, whatever the capability does: the calls recorded
    after it are those recorded before, then the request of this candidate.
    In particular a failing call is not repeated before the fallback. *)
Theorem one_outbound_call
    (json_loads : string -> outcome pyobj) (self : LLMClient)
    (candidate : DriftCandidate.t) (fallback_severity : Severity)
    (p : process) :
  calls (snd (generate_issue json_loads self candidate fallback_severity p))
  = (calls p ++ [prompt_inputs candidate])%list
  /\ length (calls (snd (generate_issue json_loads self candidate
                           fallback_severity p)))
     = S (length (calls p)).
Proof.
  pose proof (LlmFacts.calls_after_generate_issue json_loads self candidate
                fallback_severity p) as Hcalls.
  split; [exact Hcalls|]. rewrite Hcalls, length_app. simpl. lia.
Qed.

Lemma code_text_cases (change : CodeChange.t) :
  (Spec.present (CodeChange.new_code change) ->
   CodeChange.new_code change = Some (code_text change))
  /\ (~ Spec.present (CodeChange.new_code change) ->
      Spec.present (CodeChange.old_code change) ->
      CodeChange.old_code change = Some (code_text change))
  /\ (~ Spec.present (CodeChange.new_code change) ->
      ~ Spec.present (CodeChange.old_code change) ->
      code_text change = EmptyString).
Proof.
  unfold Spec.present, code_text.
  destruct (CodeChange.new_code change) as [[|c new]|],
           (CodeChange.old_code change) as [[|c' old]|]; cbn;
    repeat split; try reflexivity;
    try (intros (? & ? & [=]); fail);
    try (intros _ (? & ? & [=]); fail);
    try (intros Hno; exfalso; apply Hno; eauto; fail);
    try (intros _ Hno; exfalso; apply Hno; eauto; fail).
Qed.

Lemma prompt_inputs_code_change (candidate : DriftCandidate.t) :
  prompt_inputs candidate !! "code_change"
  = Some (CodeChange.summary (DriftCandidate.change candidate) +:+ nl +:+ nl
          +:+ code_text (DriftCandidate.change candidate)).
Proof.
  unfold prompt_inputs.
  destruct (fold_left _ _ _) as [[|line text] changed]; reflexivity.
Qed.

(** C6. The code text that [generate_issue] puts in the request (after the
    change summary and a blank line) and the [code_snippet] of the issue it
    produces are the same text: the new code when the change has new code,
    otherwise the old code when it has old code, otherwise the empty
    string. A code text counts as there when it is not [None] and not
    empty, which is what [or] tests. *)
Theorem code_text_prefers_new_code
    (json_loads : string -> outcome pyobj) (self : LLMClient)
    (candidate : DriftCandidate.t) (fallback_severity : Severity)
    (p : process) :
  let change := DriftCandidate.change candidate in
  let run := generate_issue json_loads self candidate fallback_severity p in
  exists request text,
    calls (snd run) = (calls p ++ [request])%list
    /\ request !! "code_change"
       = Some (CodeChange.summary change +:+ nl +:+ nl +:+ text)
    /\ (forall issue, fst run = Ok issue -> DriftIssue.code_snippet issue = text)
    /\ (Spec.present (CodeChange.new_code change) ->
        CodeChange.new_code change = Some text)
    /\ (~ Spec.present (CodeChange.new_code change) ->
        Spec.present (CodeChange.old_code change) ->
        CodeChange.old_code change = Some text)
    /\ (~ Spec.present (CodeChange.new_code change) ->
        ~ Spec.present (CodeChange.old_code change) ->
        text = EmptyString).
Proof.
  intros change run.
  exists (prompt_inputs candidate), (code_text change).
  split; [apply LlmFacts.calls_after_generate_issue|].
  split; [apply prompt_inputs_code_change|].
  split; [|apply code_text_cases].
  subst run. LlmFacts.run_generate_issue.
  destruct (_chain self (calls p) (prompt_inputs candidate)) as [raw|exc];
    [destruct (json_loads raw) as [data|exc]|]; cbn -[prompt_inputs];
    repeat match goal with
    | |- context [match ?x with Ok _ => _ | Raise _ => _ end] =>
        destruct x; cbn -[prompt_inputs]
    end; intros issue [= <-]; reflexivity.
Qed.

Lemma code_text_prefers_new_code_witness :
  Spec.present (CodeChange.new_code Samples.fetch_change)
  /\ exists request issue,
       calls (snd (generate_issue Json.loads
                     (Samples.client_answering
                        (Ok Samples.response_with_unknown_severity))
                     Samples.fetch_candidate MEDIUM Samples.idle))
       = [request]
       /\ request !! "code_change"
          = Some ("Modified function fetch" +:+ nl +:+ nl
                  +:+ "def fetch(url, timeout):")
       /\ fst (generate_issue Json.loads
                 (Samples.client_answering
                    (Ok Samples.response_with_unknown_severity))
                 Samples.fetch_candidate MEDIUM Samples.idle) = Ok issue
       /\ DriftIssue.code_snippet issue = "def fetch(url, timeout):".
Proof.
  assert (Hnew : Spec.present (CodeChange.new_code Samples.fetch_change))
    by (unfold Spec.present; simpl; eauto).
  split; [exact Hnew|].
  destruct (code_text_prefers_new_code Json.loads
              (Samples.client_answering
                 (Ok Samples.response_with_unknown_severity))
              Samples.fetch_candidate MEDIUM Samples.idle)
    as (request & text & Hcalls & Hrequest & Hissue & Hpresent & _).
  specialize (Hpresent Hnew). injection Hpresent as <-.
  exists request. eexists.
  split; [exact Hcalls|]. split; [exact Hrequest|].
  split; [vm_compute; reflexivity|]. reflexivity.
Defined.

(** C5. A severity that the response leaves out (no entry, or null) or
    gives as a string naming none of low, medium, critical (names are read
    as [_parse_severity] reads them, without surrounding whitespace and
    without regard to case) becomes the fallback severity in the issue.
    [_parse_severity] raises on no string and on no absent value, and the
    response is not rejected: the issue is the one built from its other
    fields. *)
Theorem unknown_severity_defaults
    (json_loads : string -> outcome pyobj) (self : LLMClient)
    (candidate : DriftCandidate.t) (fallback_severity : Severity)
    (p : process) (d : gmap string pyobj) (value : option string) :
  Spec.call_yields json_loads self (calls p) (prompt_inputs candidate)
    (PyDict d) ->
  default PyNone (d !! "severity") = of_opt value ->
  (forall text, value = Some text ->
     ~ In (lower (strip text)) ["low"; "medium"; "critical"]) ->
  (forall (any : option string) (default : Severity),
     exists severity, _parse_severity (of_opt any) default = Ok severity)
  /\ _parse_severity (of_opt value) fallback_severity = Ok fallback_severity
  /\ exists issue,
       fst (generate_issue json_loads self candidate fallback_severity p)
       = Ok issue
       /\ DriftIssue.severity issue = fallback_severity
       /\ issue = Spec.issue_of_object self candidate fallback_severity d.
Proof.
  intros Hyields Hentry Hunknown.
  assert (Hparse :
    _parse_severity (of_opt value) fallback_severity = Ok fallback_severity).
  { destruct value as [text|]; [|reflexivity].
    apply LlmFacts.parse_severity_unnamed, Hunknown. reflexivity. }
  split; [exact LlmFacts.parse_severity_optional_text|].
  split; [exact Hparse|].
  rewrite (LlmFacts.generate_issue_of_object json_loads self candidate
             fallback_severity p d Hyields), Hentry, Hparse.
  eexists. repeat split.
Qed.

Lemma unknown_severity_defaults_witness :
  exists d,
    Spec.call_yields Json.loads
      (Samples.client_answering (Ok Samples.response_with_unknown_severity))
      (calls Samples.idle) (prompt_inputs Samples.fetch_candidate) (PyDict d)
    /\ default PyNone (d !! "severity") = of_opt (Some "Urgent!")
    /\ DriftIssue.severity (Spec.issue_of_object
          (Samples.client_answering (Ok Samples.response_with_unknown_severity))
          Samples.fetch_candidate MEDIUM d) = MEDIUM
    /\ fst (generate_issue Json.loads
              (Samples.client_answering
                 (Ok Samples.response_with_unknown_severity))
              Samples.fetch_candidate MEDIUM Samples.idle)
       = Ok (Spec.issue_of_object
               (Samples.client_answering
                  (Ok Samples.response_with_unknown_severity))
               Samples.fetch_candidate MEDIUM d).
Proof.
  exists {[ "summary" := PyStr "Docs lag"; "severity" := PyStr "Urgent!";
            "suggestion" := PyStr "Mention the timeout" ]}.
  assert (Hyields :
    Spec.call_yields Json.loads
      (Samples.client_answering (Ok Samples.response_with_unknown_severity))
      (calls Samples.idle) (prompt_inputs Samples.fetch_candidate)
      (PyDict {[ "summary" := PyStr "Docs lag"; "severity" := PyStr "Urgent!";
                 "suggestion" := PyStr "Mention the timeout" ]})).
  { exists Samples.response_with_unknown_severity.
    split; [reflexivity | vm_compute; reflexivity]. }
  assert (Hunknown : forall text, Some "Urgent!" = Some text ->
            ~ In (lower (strip text)) ["low"; "medium"; "critical"]).
  { intros text [= <-]. vm_compute. intros [H|[H|[H|[]]]]; discriminate H. }
  destruct (unknown_severity_defaults Json.loads
              (Samples.client_answering
                 (Ok Samples.response_with_unknown_severity))
              Samples.fetch_candidate MEDIUM Samples.idle _ (Some "Urgent!")
              Hyields eq_refl Hunknown)
    as (_ & _ & issue & Hrun & Hseverity & ->).
  split; [exact Hyields|]. split; [reflexivity|].
  split; [exact Hseverity | exact Hrun].
Defined.

(** C1 fails on the code: a response that is valid JSON but not an object
    passes the [try] and makes [data.get] raise. With the chain answering
    the text of the empty array, [generate_issue] raises [AttributeError];
    so it does for an object whose severity is a number, on [value.strip]. *)
Theorem generate_issue_can_raise :
  Json.loads "[]" = Ok (PyList [])
  /\ fst (generate_issue Json.loads (Samples.client_answering (Ok "[]"))
            Samples.fetch_candidate MEDIUM Samples.idle)
     = Raise (AttributeError "list" "get")
  /\ fst (generate_issue Json.loads
            (Samples.client_answering
               (Ok Samples.response_with_numeric_severity))
            Samples.fetch_candidate MEDIUM Samples.idle)
     = Raise (AttributeError "int" "strip").
Proof. repeat split; vm_compute; reflexivity. Qed.

(** C3 fails on the code: the response [{"summary": "Docs lag",
    "severity": "low"}] lacks the suggestion, and the issue keeps its
    summary and its severity and takes the description as suggestion; it is
    not the local fallback issue. *)
Lemma missing_field_is_not_fallback :
  exists d issue,
    Spec.call_yields Json.loads
      (Samples.client_answering (Ok Samples.response_without_suggestion))
      (calls Samples.idle) (prompt_inputs Samples.fetch_candidate) (PyDict d)
    /\ Spec.missing_required_field d
    /\ fst (generate_issue Json.loads
              (Samples.client_answering
                 (Ok Samples.response_without_suggestion))
              Samples.fetch_candidate MEDIUM Samples.idle) = Ok issue
    /\ issue <> Spec.local_fallback_issue
                  (Samples.client_answering
                     (Ok Samples.response_without_suggestion))
                  Samples.fetch_candidate MEDIUM
    /\ DriftIssue.summary issue = PyStr "Docs lag"
    /\ DriftIssue.severity issue = LOW
    /\ DriftIssue.suggestion issue
       = PyStr "Signature of fetch changed but docs/api.md did not".
Proof.
  exists {[ "summary" := PyStr "Docs lag"; "severity" := PyStr "low" ]}.
  exists (Spec.issue_of_object
            (Samples.client_answering (Ok Samples.response_without_suggestion))
            Samples.fetch_candidate LOW
            {[ "summary" := PyStr "Docs lag"; "severity" := PyStr "low" ]}).
  split.
  { exists Samples.response_without_suggestion.
    split; [reflexivity | vm_compute; reflexivity]. }
  split; [right; right; reflexivity|].
  split; [vm_compute; reflexivity|].
  split; [|repeat split].
  intros Heq. apply (f_equal DriftIssue.severity) in Heq. discriminate Heq.
Qed.

(** C3, amended. When the response is an object that lacks a required
    field, and its severity, if given, is a string or null,
    [generate_issue] returns an issue whose fields are settled one by one:
    a missing summary and a missing suggestion both become the candidate's
    description, a missing severity becomes the fallback severity, and
    what the response does give is kept (a truthy summary or suggestion, a
    severity naming low, medium or critical, the excerpt). *)
Theorem missing_fields_default_separately
    (json_loads : string -> outcome pyobj) (self : LLMClient)
    (candidate : DriftCandidate.t) (fallback_severity : Severity)
    (p : process) (d : gmap string pyobj) (value : option string) :
  Spec.call_yields json_loads self (calls p) (prompt_inputs candidate)
    (PyDict d) ->
  Spec.missing_required_field d ->
  default PyNone (d !! "severity") = of_opt value ->
  exists issue,
    fst (generate_issue json_loads self candidate fallback_severity p)
    = Ok issue
    /\ (d !! "summary" = None ->
        DriftIssue.summary issue
        = PyStr (DriftCandidate.description candidate))
    /\ (d !! "suggestion" = None ->
        DriftIssue.suggestion issue
        = PyStr (DriftCandidate.description candidate))
    /\ (d !! "severity" = None -> DriftIssue.severity issue = fallback_severity)
    /\ (forall v, d !! "summary" = Some v -> truthy v = true ->
        DriftIssue.summary issue = v)
    /\ (forall v, d !! "suggestion" = Some v -> truthy v = true ->
        DriftIssue.suggestion issue = v)
    /\ (forall text named, d !! "severity" = Some (PyStr text) ->
        lower (strip text) = severity_value named ->
        DriftIssue.severity issue = named)
    /\ DriftIssue.documentation_snippet issue
       = default PyNone (d !! "doc_excerpt").
Proof.
  intros Hyields _ Hentry.
  rewrite (LlmFacts.generate_issue_of_object json_loads self candidate
             fallback_severity p d Hyields), Hentry.
  destruct (LlmFacts.parse_severity_optional_text value fallback_severity)
    as [severity Hparse].
  rewrite Hparse. eexists. split; [reflexivity|]. cbn.
  split; [intros ->; reflexivity|].
  split; [intros ->; reflexivity|].
  split.
  { intros Hnone. rewrite Hnone in Hentry. cbn in Hentry.
    destruct value as [text|]; [discriminate Hentry|].
    cbn in Hparse. congruence. }
  split; [intros v -> Hv; cbn; unfold py_or; now rewrite Hv|].
  split; [intros v -> Hv; cbn; unfold py_or; now rewrite Hv|].
  split; [|reflexivity].
  intros text named Hsome Hnamed. rewrite Hsome in Hentry. cbn in Hentry.
  destruct value as [text'|]; [|discriminate Hentry].
  injection Hentry as <-. cbn [of_opt] in Hparse.
  rewrite (LlmFacts.parse_severity_named text fallback_severity named Hnamed)
    in Hparse.
  congruence.
Qed.

Lemma missing_fields_default_separately_witness :
  exists d issue,
    Spec.call_yields Json.loads
      (Samples.client_answering (Ok Samples.response_without_suggestion))
      (calls Samples.idle) (prompt_inputs Samples.fetch_candidate) (PyDict d)
    /\ Spec.missing_required_field d
    /\ default PyNone (d !! "severity") = of_opt (Some "low")
    /\ fst (generate_issue Json.loads
              (Samples.client_answering
                 (Ok Samples.response_without_suggestion))
              Samples.fetch_candidate MEDIUM Samples.idle) = Ok issue
    /\ DriftIssue.suggestion issue
       = PyStr "Signature of fetch changed but docs/api.md did not"
    /\ DriftIssue.summary issue = PyStr "Docs lag"
    /\ DriftIssue.severity issue = LOW.
Proof.
  exists {[ "summary" := PyStr "Docs lag"; "severity" := PyStr "low" ]}.
  assert (Hyields :
    Spec.call_yields Json.loads
      (Samples.client_answering (Ok Samples.response_without_suggestion))
      (calls Samples.idle) (prompt_inputs Samples.fetch_candidate)
      (PyDict {[ "summary" := PyStr "Docs lag"; "severity" := PyStr "low" ]})).
  { exists Samples.response_without_suggestion.
    split; [reflexivity | vm_compute; reflexivity]. }
  assert (Hmissing : Spec.missing_required_field
            {[ "summary" := PyStr "Docs lag"; "severity" := PyStr "low" ]})
    by (right; right; reflexivity).
  destruct (missing_fields_default_separately Json.loads
              (Samples.client_answering
                 (Ok Samples.response_without_suggestion))
              Samples.fetch_candidate MEDIUM Samples.idle _ (Some "low")
              Hyields Hmissing eq_refl)
    as (issue & Hrun & _ & Hsuggestion & _ & Hsummary & _ & Hseverity & _).
  exists issue.
  split; [exact Hyields|]. split; [exact Hmissing|]. split; [reflexivity|].
  split; [exact Hrun|].
  split; [apply Hsuggestion; reflexivity|].
  split; [apply Hsummary; reflexivity|].
  apply (Hseverity "low" LOW); reflexivity.
Defined.

(** C8 fails on the code: a run whose call fails and a run whose call
    succeeds yield the same issue, field for field. The first client cannot
    reach its model; the second gets an object that spells out the
    description, medium, the generic instruction and a null excerpt. *)
Lemma fallback_issue_not_distinguishable :
  Spec.call_fails Json.loads (Samples.client_answering Samples.unreachable)
    (calls Samples.idle) (prompt_inputs Samples.fetch_candidate) = true
  /\ Spec.call_fails Json.loads
       (Samples.client_answering (Ok Samples.response_like_fallback))
       (calls Samples.idle) (prompt_inputs Samples.fetch_candidate) = false
  /\ exists issue,
       fst (generate_issue Json.loads
              (Samples.client_answering Samples.unreachable)
              Samples.fetch_candidate MEDIUM Samples.idle) = Ok issue
       /\ fst (generate_issue Json.loads
                 (Samples.client_answering (Ok Samples.response_like_fallback))
                 Samples.fetch_candidate MEDIUM Samples.idle) = Ok issue.
Proof.
  split; [reflexivity|]. split; [vm_compute; reflexivity|].
  exists (Spec.local_fallback_issue
            (Samples.client_answering Samples.unreachable)
            Samples.fetch_candidate MEDIUM).
  split; vm_compute; reflexivity.
Qed.

(** C8, amended. The issue of the local fallback carries no mark of its
    origin: its metadata holds the provider and the symbol, as for any
    issue, and it is equal, field for field, to the issue produced when the
    call succeeds with an object that gives the description as summary, the
    identifier of the fallback severity, the generic instruction and a null
    excerpt. The two runs differ in the log only, where the failed call
    leaves one warning. *)
Theorem fallback_issue_carries_no_marker
    (json_loads : string -> outcome pyobj) (failing succeeding : LLMClient)
    (candidate : DriftCandidate.t) (fallback_severity : Severity)
    (p q : process) :
  class_name (chat_model failing) = class_name (chat_model succeeding) ->
  Spec.call_fails json_loads failing (calls p) (prompt_inputs candidate)
  = true ->
  Spec.call_yields json_loads succeeding (calls q) (prompt_inputs candidate)
    (PyDict {[ "summary" := PyStr (DriftCandidate.description candidate);
               "severity" := PyStr (severity_value fallback_severity);
               "suggestion" := PyStr fallback_suggestion;
               "doc_excerpt" := PyNone ]}) ->
  exists issue,
    fst (generate_issue json_loads failing candidate fallback_severity p)
    = Ok issue
    /\ fst (generate_issue json_loads succeeding candidate fallback_severity q)
       = Ok issue
    /\ DriftIssue.metadata issue
       = {[ "provider" := PyStr (class_name (chat_model failing));
            "symbol" := of_opt (CodeChange.symbol
                                  (DriftCandidate.change candidate)) ]}
    /\ log (snd (generate_issue json_loads succeeding candidate
                   fallback_severity q)) = log q
    /\ exists exc,
         log (snd (generate_issue json_loads failing candidate
                     fallback_severity p))
         = (log p ++ [Warning "LLM suggestion failed (%s). Using fallback."
                        [ArgExn exc]])%list.
Proof.
  intros Hclass Hfails Hyields.
  destruct (LlmFacts.generate_issue_after_failure json_loads failing candidate
              fallback_severity p Hfails) as [exc Hfailing].
  rewrite Hfailing.
  rewrite (LlmFacts.generate_issue_of_object json_loads succeeding candidate
             fallback_severity q _ Hyields).
  destruct (LlmFacts.fallback_data_lookups
              (PyStr (DriftCandidate.description candidate))
              (PyStr (severity_value fallback_severity))
              (PyStr fallback_suggestion) PyNone) as (Hsum & Hsev & Hsug & Hdoc).
  rewrite Hsev. cbn [default id]. rewrite LlmFacts.fallback_severity_parses.
  exists (Spec.local_fallback_issue failing candidate fallback_severity).
  split; [reflexivity|]. split.
  { cbn [fst]. f_equal. unfold Spec.issue_of_object, Spec.local_fallback_issue.
    rewrite Hsum, Hsug, Hdoc, Hclass. cbn [default id]. unfold py_or.
    destruct (DriftCandidate.description candidate); reflexivity. }
  split; [reflexivity|]. split; [reflexivity|]. exists exc. reflexivity.
Qed.

Lemma fallback_issue_carries_no_marker_witness :
  exists issue,
    fst (generate_issue Json.loads
           (Samples.client_answering Samples.unreachable)
           Samples.fetch_candidate MEDIUM Samples.idle) = Ok issue
    /\ fst (generate_issue Json.loads
              (Samples.client_answering (Ok Samples.response_like_fallback))
              Samples.fetch_candidate MEDIUM Samples.idle) = Ok issue.
Proof.
  destruct (fallback_issue_carries_no_marker Json.loads
              (Samples.client_answering Samples.unreachable)
              (Samples.client_answering (Ok Samples.response_like_fallback))
              Samples.fetch_candidate MEDIUM Samples.idle Samples.idle)
    as (issue & Hfailing & Hsucceeding & _).
  - reflexivity.
  - reflexivity.
  - exists Samples.response_like_fallback.
    split; [reflexivity | vm_compute; reflexivity].
  - exists issue. split; assumption.
Defined.

End LlmSpec.

(** ** The exit signal of [cli.py] *)

Module CliSpec.
Import Py Os Models Cli.

Lemma has_critical_issues_iff (report : DriftReport.t) :
  _has_critical_issues report = true
  <-> exists issue, In issue (DriftReport.issues report)
                    /\ DriftIssue.severity issue = CRITICAL.
Proof.
  unfold _has_critical_issues. rewrite existsb_exists.
  split; intros (issue & Hin & Hsev); exists issue; split; try exact Hin.
  - destruct (DriftIssue.severity issue); (reflexivity || discriminate Hsev).
  - now rewrite Hsev.
Qed.

Section Collaborators.

Variable parse_args : option (list string) -> outcome Namespace.
Variable resolve : string -> outcome string.
Variable str_float : spec_float -> string.
Variable dotenv_values : gmap string string.
Variable py_float : string -> outcome spec_float.
Variable importable : string -> bool.
Variable ChatOllama :
  string -> option string -> spec_float -> outcome Llm.BaseChatModel.
Variable ChatOpenAI :
  string -> option string -> spec_float -> option string ->
  outcome Llm.BaseChatModel.
Variable ChatAnthropic :
  string -> option string -> spec_float -> outcome Llm.BaseChatModel.
Variable init_chat_model :
  string -> string -> spec_float -> option string ->
  outcome Llm.BaseChatModel.
Variable detector_run :
  Config.Settings -> Llm.LLMClient -> M process DriftReport.t.
Variable render : string -> DriftReport.t -> outcome string.
Variable save : string -> DriftReport.t -> string -> outcome string.

Local Abbreviation analyse :=
  (Cli.analyse parse_args resolve str_float dotenv_values py_float importable
     ChatOllama ChatOpenAI ChatAnthropic init_chat_model detector_run).
Local Abbreviation run_cli :=
  (Cli.run_cli parse_args resolve str_float dotenv_values py_float importable
     ChatOllama ChatOpenAI ChatAnthropic init_chat_model detector_run
     render save).

(** C7. [_has_critical_issues] is true exactly when some issue of the
    report has severity critical, and [run_cli] exits with 1 exactly when
    it is true of the report the detector returned, with 0 otherwise:
    once the report is there and rendering and saving succeed, [run_cli]
    returns that code, and a code [run_cli] returns is that code. *)
Theorem exit_code_signals_critical (argv : option (list string))
    (p : process) :
  (forall report,
     _has_critical_issues report = true
     <-> exists issue, In issue (DriftReport.issues report)
                       /\ DriftIssue.severity issue = CRITICAL)
  /\ (forall settings report q,
        analyse argv p = (Ok (settings, report), q) ->
        (exists output,
           render (Config.format (Config.output settings)) report
           = Ok output) ->
        (Config.save_report (Config.output settings) = true ->
         exists saved_path,
           save (Config.format (Config.output settings)) report
             (Config.report_path (Config.output settings))
           = Ok saved_path) ->
        fst (run_cli argv p)
        = Ok (if _has_critical_issues report then 1%Z else 0%Z))
  /\ (forall code,
        fst (run_cli argv p) = Ok code ->
        exists settings report q,
          analyse argv p = (Ok (settings, report), q)
          /\ (code = 1%Z <-> _has_critical_issues report = true)
          /\ (code = 0%Z <-> _has_critical_issues report = false)).
Proof.
  split; [exact has_critical_issues_iff|].
  unfold Cli.run_cli. split.
  - intros settings report q Hreport [output Hrender] Hsave.
    unfold bind at 1. rewrite Hreport. unfold bind, lift, print, modify, ret.
    rewrite Hrender.
    destruct (Config.save_report (Config.output settings)).
    + destruct (Hsave eq_refl) as [saved_path ->].
      now destruct (_has_critical_issues report).
    + now destruct (_has_critical_issues report).
  - intros code. unfold bind at 1.
    destruct (analyse argv p) as [[[settings report]|exc] q];
      [|discriminate].
    unfold bind, lift, print, modify, ret.
    destruct (render _ report) as [output|exc]; [|discriminate].
    intros Hcode. exists settings, report, q. split; [reflexivity|].
    destruct (Config.save_report (Config.output settings));
      [destruct (save _ report _) as [saved_path|exc];
         [|discriminate Hcode]|];
      destruct (_has_critical_issues report); cbn in Hcode;
      injection Hcode as <-; split; split; intros; congruence.
Qed.

End Collaborators.

Lemma exit_code_signals_critical_witness :
  fst (run_cli Samples.parse_bare Samples.resolve_same Samples.str_zero ∅
         Samples.float_zero Samples.all_importable Samples.build3
         Samples.build4 Samples.build3 Samples.build_generic
         (Samples.detector_returning (Samples.report_of [LOW; CRITICAL]))
         Samples.render_line Samples.save_at None Samples.idle)
  = Ok 1%Z.
Proof.
  destruct (exit_code_signals_critical
              Samples.parse_bare Samples.resolve_same Samples.str_zero ∅
              Samples.float_zero Samples.all_importable Samples.build3
              Samples.build4 Samples.build3 Samples.build_generic
              (Samples.detector_returning (Samples.report_of [LOW; CRITICAL]))
              Samples.render_line Samples.save_at None Samples.idle)
    as (_ & Hreturns & _).
  eapply (Hreturns _ (Samples.report_of [LOW; CRITICAL])).
  - vm_compute. reflexivity.
  - eexists. reflexivity.
  - intros _. eexists. reflexivity.
Defined.

End CliSpec.

(** ** More on [config.py] *)

Module ConfigMore.
Import Py Os Config.

Section Environment.
Variable dotenv_values : gmap string string.
Variable py_float : string -> outcome spec_float.

Lemma load_settings_run (repo_path : string)
    (since from_ref to_ref branch : option string) (p : process) :
  let env := environ p ∪ dotenv_values in
  load_settings dotenv_values py_float repo_path since from_ref to_ref branch p
  = (match py_float (default "0" (env !! "LLM_TEMPERATURE")) with
     | Ok t =>
         Ok {| repo_path := repo_path;
               llm := {| provider := default "ollama" (env !! "LLM_PROVIDER");
                         model := default "llama3.1" (env !! "LLM_MODEL");
                         base_url := env !! "LLM_BASE_URL";
                         api_key := env !! "LLM_API_KEY";
                         temperature := t |};
               analysis :=
                 {| severity_threshold :=
                      default "low" (env !! "SEVERITY_THRESHOLD");
                    auto_ignore_private_functions :=
                      _env_bool (env !! "AUTO_IGNORE_PRIVATE_FUNCTIONS") true;
                    check_examples := _env_bool (env !! "CHECK_EXAMPLES") true;
                    check_inline_comments :=
                      _env_bool (env !! "CHECK_INLINE_COMMENTS") true |};
               output :=
                 {| format := default "terminal" (env !! "OUTPUT_FORMAT");
                    save_report := _env_bool (env !! "SAVE_REPORT") false;
                    report_path :=
                      default "./drift_reports" (env !! "REPORT_PATH") |};
               since := since; from_ref := from_ref; to_ref := to_ref;
               branch := branch |}
     | Raise e => Raise e
     end,
     Terms.with_environ (fun env => env ∪ dotenv_values) p).
Proof.
  unfold load_settings, load_dotenv, set_environ, modify, getenv, getenv_or,
    bind, lift, ret. cbn.
  destruct (py_float _); reflexivity.
Qed.

Lemma lookup_env_or_dotenv (env : gmap string string) (key : string) :
  (env ∪ dotenv_values) !! key = Terms.env_or_dotenv env dotenv_values key.
Proof.
  unfold Terms.env_or_dotenv. rewrite lookup_union.
  destruct (env !! key), (dotenv_values !! key); reflexivity.
Qed.

(** X1. [load_settings] changes nothing but the environment, and there it
    only adds: after it, whether it returned or raised, a variable holds
    the value it had in the process, or, if it had none, the value of the
    [.env] file; standard output, the log and the calls are as before. *)
Theorem load_settings_touches_environ_only (repo_path : string)
    (since from_ref to_ref branch : option string) (p : process) :
  let q := snd (load_settings dotenv_values py_float repo_path
                  since from_ref to_ref branch p) in
  stdout q = stdout p /\ log q = log p /\ calls q = calls p
  /\ forall key,
       environ q !! key = Terms.env_or_dotenv (environ p) dotenv_values key.
Proof.
  rewrite load_settings_run. cbn. repeat split.
  intros key. apply lookup_env_or_dotenv.
Qed.

(** X2. [load_settings] fails on the temperature and on nothing else: it
    returns settings, with the temperature [float] gives, exactly when
    [float] accepts the text of [LLM_TEMPERATURE] (or [0] when the variable
    is unset), and otherwise raises what [float] raises. *)
Theorem load_settings_fails_on_temperature_only (repo_path : string)
    (since from_ref to_ref branch : option string) (p : process) :
  let run := fst (load_settings dotenv_values py_float repo_path
                    since from_ref to_ref branch p) in
  match py_float (default "0" (Terms.env_or_dotenv (environ p) dotenv_values
                                 "LLM_TEMPERATURE")) with
  | Ok t => exists settings, run = Ok settings
                             /\ temperature (llm settings) = t
  | Raise e => run = Raise e
  end.
Proof.
  rewrite load_settings_run. cbn. rewrite lookup_env_or_dotenv.
  destruct (py_float _); [eexists; split; reflexivity | reflexivity].
Qed.


(** X13. [load_settings] can be repeated: run again in the state it left,
    it returns the same outcome and leaves that state as it is. *)
Theorem load_settings_is_repeatable (repo_path : string)
    (since from_ref to_ref branch : option string) (p : process) :
  let first := load_settings dotenv_values py_float repo_path
                 since from_ref to_ref branch p in
  load_settings dotenv_values py_float repo_path since from_ref to_ref branch
    (snd first)
  = first.
Proof.
  cbv zeta. rewrite !load_settings_run. cbv zeta.
  cbn [snd Terms.with_environ environ stdout log calls].
  assert (Hagain : environ p ∪ dotenv_values ∪ dotenv_values
                   = environ p ∪ dotenv_values)
    by (rewrite <- (assoc_L (∪)); f_equal; apply (idemp_L (∪))).
  unfold Terms.with_environ. cbn [environ stdout log calls].
  rewrite !Hagain. reflexivity.
Qed.

End Environment.


End ConfigMore.

(** ** More on [cli.py] *)

Module CliMore.
Import Py Os Models Cli.

Lemma lookup_set_if (key key' : string) (value : option string)
    (env : gmap string string) :
  Terms.set_if key value env !! key'
  = if decide (key = key')
    then Terms.given_or Some value (env !! key')
    else env !! key'.
Proof.
  unfold Terms.set_if, Terms.given_or.
  destruct value as [[|c rest]|]; case_decide; subst;
    rewrite ?lookup_insert_eq, ?lookup_insert_ne by assumption; reflexivity.
Qed.

Lemma override_env_run (key : string) (value : option string) (p : process) :
  override_env key value p
  = (Ok tt, Terms.with_environ (Terms.set_if key value) p).
Proof.
  unfold override_env, Terms.set_if, Terms.with_environ.
  destruct value as [[|c rest]|]; destruct p; reflexivity.
Qed.

Lemma ensure_env_overrides_run (str_float : spec_float -> string)
    (args : Namespace) (p : process) :
  _ensure_env_overrides str_float args p
  = (Ok tt, Terms.with_environ (Terms.overridden str_float args) p).
Proof.
  unfold _ensure_env_overrides, bind, Terms.overridden.
  rewrite !override_env_run.
  destruct (temperature args); cbn; rewrite !override_env_run; reflexivity.
Qed.

Ltac settle_lookups :=
  repeat first
    [ rewrite lookup_set_if
    | rewrite lookup_insert_eq
    | rewrite lookup_insert_ne by discriminate ];
  repeat (case_decide; try discriminate; try contradiction);
  try reflexivity.


Lemma found_after_override (str_float : spec_float -> string)
    (args : Namespace) (env dotenv_values : gmap string string) :
  let found := Terms.env_or_dotenv env dotenv_values in
  let found' :=
    Terms.env_or_dotenv (Terms.overridden str_float args env) dotenv_values in
  found' "LLM_PROVIDER"
  = Terms.given_or Some (provider args) (found "LLM_PROVIDER")
  /\ found' "LLM_MODEL" = Terms.given_or Some (model args) (found "LLM_MODEL")
  /\ found' "LLM_API_KEY"
     = Terms.given_or Some (api_key args) (found "LLM_API_KEY")
  /\ found' "LLM_BASE_URL"
     = Terms.given_or Some (base_url args) (found "LLM_BASE_URL")
  /\ found' "SEVERITY_THRESHOLD"
     = Terms.given_or Some (severity_threshold args)
         (found "SEVERITY_THRESHOLD")
  /\ found' "OUTPUT_FORMAT"
     = Terms.given_or Some (output_format args) (found "OUTPUT_FORMAT")
  /\ found' "REPORT_PATH"
     = Terms.given_or Some (report_path args) (found "REPORT_PATH")
  /\ found' "LLM_TEMPERATURE"
     = match temperature args with
       | Some t => Some (str_float t)
       | None => found "LLM_TEMPERATURE"
       end
  /\ forall key, In key Terms.override_keys \/ found' key = found key.
Proof.
  cbv zeta. unfold Terms.env_or_dotenv, Terms.overridden.
  repeat split.
  1-7: destruct (temperature args); settle_lookups;
       match goal with
       | |- context [Terms.given_or Some ?v _] =>
           destruct v as [[|c rest]|]; reflexivity
       end.
  - destruct (temperature args); settle_lookups.
  - intros key. unfold Terms.override_keys.
    repeat (rewrite lookup_set_if; case_decide; [left; subst; simpl; tauto|]).
    destruct (temperature args) as [t|].
    + destruct (decide ("LLM_TEMPERATURE" = key)) as [<-|Hne];
        [left; simpl; tauto|].
      rewrite lookup_insert_ne by assumption.
      repeat (rewrite lookup_set_if; case_decide;
              [left; subst; simpl; tauto|]).
      right. reflexivity.
    + repeat (rewrite lookup_set_if; case_decide;
              [left; subst; simpl; tauto|]).
      right. reflexivity.
Qed.

Section Collaborators.

Variable parse_args : option (list string) -> outcome Namespace.
Variable resolve : string -> outcome string.
Variable str_float : spec_float -> string.
Variable dotenv_values : gmap string string.
Variable py_float : string -> outcome spec_float.
Variable importable : string -> bool.
Variable ChatOllama :
  string -> option string -> spec_float -> outcome Llm.BaseChatModel.
Variable ChatOpenAI :
  string -> option string -> spec_float -> option string ->
  outcome Llm.BaseChatModel.
Variable ChatAnthropic :
  string -> option string -> spec_float -> outcome Llm.BaseChatModel.
Variable init_chat_model :
  string -> string -> spec_float -> option string ->
  outcome Llm.BaseChatModel.
Variable detector_run :
  Config.Settings -> Llm.LLMClient -> M process DriftReport.t.
Variable render : string -> DriftReport.t -> outcome string.
Variable save : string -> DriftReport.t -> string -> outcome string.

Local Abbreviation analyse :=
  (Cli.analyse parse_args resolve str_float dotenv_values py_float importable
     ChatOllama ChatOpenAI ChatAnthropic init_chat_model detector_run).
Local Abbreviation run_cli :=
  (Cli.run_cli parse_args resolve str_float dotenv_values py_float importable
     ChatOllama ChatOpenAI ChatAnthropic init_chat_model detector_run
     render save).
Local Abbreviation create_chat_model :=
  (Llm.create_chat_model importable ChatOllama ChatOpenAI ChatAnthropic
     init_chat_model).

(** What a successful [analyse] went through. *)
Lemma analyse_inv (argv : option (list string)) (p q : process)
    (settings : Config.Settings) (report : DriftReport.t) :
  analyse argv p = (Ok (settings, report), q) ->
  exists args repo_path base chat_model q1 q2,
    parse_args argv = Ok args
    /\ resolve (repo args) = Ok repo_path
    /\ Config.load_settings dotenv_values py_float repo_path
         (since args) (from_ref args) (to_ref args) (branch args)
         (Terms.with_environ (Terms.overridden str_float args) p)
       = (Ok base, q1)
    /\ Config.repo_path settings = Config.repo_path base
    /\ Config.llm settings = Config.llm base
    /\ Config.severity_threshold (Config.analysis settings)
       = override (severity_threshold args)
           (Config.severity_threshold (Config.analysis base))
    /\ Config.auto_ignore_private_functions (Config.analysis settings)
       = Config.auto_ignore_private_functions (Config.analysis base)
    /\ Config.check_examples (Config.analysis settings)
       = Config.check_examples (Config.analysis base)
    /\ Config.check_inline_comments (Config.analysis settings)
       = Config.check_inline_comments (Config.analysis base)
    /\ Config.format (Config.output settings)
       = override (output_format args) (Config.format (Config.output base))
    /\ Config.save_report (Config.output settings)
       = (save_report args || Config.save_report (Config.output base))
    /\ Terms.given_or
         (fun text =>
            resolve text = Ok (Config.report_path (Config.output settings)))
         (report_path args)
         (Config.report_path (Config.output settings)
          = Config.report_path (Config.output base))
    /\ Config.since settings = Config.since base
    /\ Config.from_ref settings = Config.from_ref base
    /\ Config.to_ref settings = Config.to_ref base
    /\ Config.branch settings = Config.branch base
    /\ create_chat_model (Config.llm settings) q1 = (Ok chat_model, q2)
    /\ detector_run settings (Llm.LLMClient_init chat_model) q2
       = (Ok report, q).
Proof.
  unfold Cli.analyse. unfold bind at 1. unfold lift at 1.
  destruct (parse_args argv) as [args|e] eqn:Hargs; [|discriminate].
  unfold bind at 1. unfold lift at 1.
  destruct (resolve (repo args)) as [repo_path|e] eqn:Hrepo; [|discriminate].
  unfold bind at 1. rewrite ensure_env_overrides_run.
  unfold bind at 1.
  destruct (Config.load_settings _ _ _ _ _ _ _ _) as [[base|e] q1] eqn:Hload;
    [|discriminate].
  unfold bind at 1.
  set (path := match report_path args with
               | Some text => if truthy (PyStr text) then lift (resolve text)
                              else ret _
               | None => ret _ end).
  destruct (path q1) as [[rp|e] q1'] eqn:Hpath; [|discriminate].
  assert (Hrp : q1' = q1 /\
    Terms.given_or (fun text => resolve text = Ok rp) (report_path args)
      (rp = Config.report_path (Config.output base))).
  { subst path. unfold Terms.given_or, lift, ret in *.
    destruct (report_path args) as [[|c rest]|]; cbn in Hpath.
    - now injection Hpath as <- <-.
    - destruct (resolve (String c rest)); [|discriminate].
      now injection Hpath as <- <-.
    - now injection Hpath as <- <-. }
  destruct Hrp as [-> Hrp]. clear Hpath path.
  unfold bind at 1. cbn [Config.llm].
  destruct (Llm.create_chat_model _ _ _ _ _ _ q1) as [[cm|e] q2] eqn:Hmodel;
    [|discriminate].
  unfold bind at 1.
  destruct (detector_run _ _ q2) as [[report'|e] q'] eqn:Hrun; [|discriminate].
  unfold ret. intros [= <- <- <-].
  exists args, repo_path, base, cm, q1, q2. cbn.
  repeat split; try assumption; try reflexivity.
Qed.

Ltac invert_analyse Hrun Hargs p args :=
  destruct (analyse_inv _ _ _ _ _ Hrun)
    as (args' & repo_path & base & chat_model & q1 & q2 & Hargs' & Hrepo
        & Hload & Hpath & Hllm & Hthreshold & Hprivate & Hexamples & Hinline
        & Hformat & Hsave & Hreport & Hsince & Hfrom & Hto & Hbranch
        & Hmodel & Hdetector);
  rewrite Hargs in Hargs'; injection Hargs' as <-;
  rewrite ConfigMore.load_settings_run in Hload; cbv zeta in Hload;
  cbn [Terms.with_environ environ] in Hload;
  rewrite !ConfigMore.lookup_env_or_dotenv in Hload;
  destruct (found_after_override str_float args (environ p) dotenv_values)
    as (Fprovider & Fmodel & Fkey & Furl & Fthreshold & Fformat & Fpath
        & Ftemperature & Fother);
  cbv zeta in Fprovider, Fmodel, Fkey, Furl, Fthreshold, Fformat, Fpath,
    Ftemperature, Fother.

(** X5. In the settings the detector receives, an option given on the
    command line with some text wins over the environment and the [.env]
    file: provider, model, API key, base URL, severity threshold and output
    format. Without the option (or with an empty one) the setting is the
    one of the environment, the [.env] file or the default, in that
    order. *)
Theorem command_line_beats_environment (argv : option (list string))
    (args : Namespace) (p q : process) (settings : Config.Settings)
    (report : DriftReport.t) :
  parse_args argv = Ok args ->
  analyse argv p = (Ok (settings, report), q) ->
  let found := Terms.env_or_dotenv (environ p) dotenv_values in
  let same (text : string) := text in
  Config.provider (Config.llm settings)
  = Terms.given_or same (provider args)
      (default "ollama" (found "LLM_PROVIDER"))
  /\ Config.model (Config.llm settings)
     = Terms.given_or same (model args)
         (default "llama3.1" (found "LLM_MODEL"))
  /\ Config.api_key (Config.llm settings)
     = Terms.given_or Some (api_key args) (found "LLM_API_KEY")
  /\ Config.base_url (Config.llm settings)
     = Terms.given_or Some (base_url args) (found "LLM_BASE_URL")
  /\ Config.severity_threshold (Config.analysis settings)
     = Terms.given_or same (severity_threshold args)
         (default "low" (found "SEVERITY_THRESHOLD"))
  /\ Config.format (Config.output settings)
     = Terms.given_or same (output_format args)
         (default "terminal" (found "OUTPUT_FORMAT")).
Proof.
  intros Hargs Hrun. invert_analyse Hrun Hargs p args.
  rewrite Fprovider, Fmodel, Fkey, Furl, Fthreshold, Fformat in Hload.
  destruct (py_float _); [|discriminate Hload].
  injection Hload as <- _.
  rewrite Hllm, Hthreshold, Hformat. cbn.
  unfold override, Terms.given_or.
  destruct (provider args) as [[|? ?]|], (model args) as [[|? ?]|],
    (severity_threshold args) as [[|? ?]|],
    (output_format args) as [[|? ?]|]; repeat split.
Qed.

(** X6. A temperature given on the command line reaches the settings
    through its text: the setting is [float(str(t))]. Without it the
    setting is [float] of the variable, or of [0]. *)
Theorem temperature_passes_through_text (argv : option (list string))
    (args : Namespace) (p q : process) (settings : Config.Settings)
    (report : DriftReport.t) :
  parse_args argv = Ok args ->
  analyse argv p = (Ok (settings, report), q) ->
  py_float
    match temperature args with
    | Some t => str_float t
    | None => default "0" (Terms.env_or_dotenv (environ p) dotenv_values
                             "LLM_TEMPERATURE")
    end
  = Ok (Config.temperature (Config.llm settings)).
Proof.
  intros Hargs Hrun. invert_analyse Hrun Hargs p args.
  rewrite Ftemperature in Hload. rewrite Hllm.
  destruct (temperature args) as [t|]; cbn in Hload |- *;
    destruct (py_float _); try discriminate Hload;
    now injection Hload as <- _.
Qed.


(** X8. The four revision options reach the detector as they were given,
    all together: the command line prefers none and drops none. The
    repository path is the resolved one, and the three analysis flags,
    which have no option, are read from the environment. *)
Theorem revisions_and_flags_of_a_run (argv : option (list string))
    (args : Namespace) (p q : process) (settings : Config.Settings)
    (report : DriftReport.t) :
  parse_args argv = Ok args ->
  analyse argv p = (Ok (settings, report), q) ->
  let found := Terms.env_or_dotenv (environ p) dotenv_values in
  resolve (repo args) = Ok (Config.repo_path settings)
  /\ Config.since settings = since args
  /\ Config.from_ref settings = from_ref args
  /\ Config.to_ref settings = to_ref args
  /\ Config.branch settings = branch args
  /\ Config.auto_ignore_private_functions (Config.analysis settings)
     = Config._env_bool (found "AUTO_IGNORE_PRIVATE_FUNCTIONS") true
  /\ Config.check_examples (Config.analysis settings)
     = Config._env_bool (found "CHECK_EXAMPLES") true
  /\ Config.check_inline_comments (Config.analysis settings)
     = Config._env_bool (found "CHECK_INLINE_COMMENTS") true.
Proof.
  intros Hargs Hrun. invert_analyse Hrun Hargs p args.
  assert (Hflag : forall key, ~ In key Terms.override_keys ->
    Terms.env_or_dotenv (Terms.overridden str_float args (environ p))
      dotenv_values key
    = Terms.env_or_dotenv (environ p) dotenv_values key).
  { intros key Hout. now destruct (Fother key). }
  rewrite (Hflag "AUTO_IGNORE_PRIVATE_FUNCTIONS"), (Hflag "CHECK_EXAMPLES"),
    (Hflag "CHECK_INLINE_COMMENTS") in Hload
    by (vm_compute; intros Hin; repeat destruct Hin as [Hin|Hin];
        (discriminate Hin || contradiction)).
  destruct (py_float _); [|discriminate Hload].
  injection Hload as <- _.
  rewrite Hpath, Hsince, Hfrom, Hto, Hbranch, Hprivate, Hexamples, Hinline.
  cbn. repeat split. exact Hrepo.
Qed.

(** X9. Once the report is there and rendered, [run_cli] prints the
    rendered text as one line, followed, when saving is on and succeeds, by
    one line naming the saved path, and prints nothing else; it leaves the
    environment, the log and the calls as the analysis left them. *)
Theorem run_cli_prints_the_report (argv : option (list string))
    (p q : process) (settings : Config.Settings) (report : DriftReport.t)
    (output : string) :
  analyse argv p = (Ok (settings, report), q) ->
  render (Config.format (Config.output settings)) report = Ok output ->
  let after := snd (run_cli argv p) in
  environ after = environ q /\ log after = log q /\ calls after = calls q
  /\ stdout after
     = (stdout q ++ output ::
        (if Config.save_report (Config.output settings) then
           match save (Config.format (Config.output settings)) report
                   (Config.report_path (Config.output settings)) with
           | Ok saved_path =>
               [Llm.nl +:+ "Report saved to " +:+ saved_path]
           | Raise _ => []
           end
         else []))%list.
Proof.
  intros Hrun Hrender. remember (run_cli argv p) as run eqn:Hr.
  unfold Cli.run_cli in Hr. unfold bind at 1 in Hr. rewrite Hrun in Hr.
  unfold bind, lift, print, modify, ret in Hr. rewrite Hrender in Hr.
  destruct (Config.save_report (Config.output settings));
    [destruct (save _ report _)|];
    try destruct (_has_critical_issues report); subst run; cbn;
    rewrite <- ?app_assoc; repeat split.
Qed.

(** X10. When saving is on and the renderer fails to save, [run_cli]
    raises that exception after the report has been printed: no exit code
    is returned, whether or not the report holds a critical issue. *)
Theorem failed_save_loses_the_exit_code (argv : option (list string))
    (p q : process) (settings : Config.Settings) (report : DriftReport.t)
    (output : string) (e : exn) :
  analyse argv p = (Ok (settings, report), q) ->
  render (Config.format (Config.output settings)) report = Ok output ->
  Config.save_report (Config.output settings) = true ->
  save (Config.format (Config.output settings)) report
    (Config.report_path (Config.output settings)) = Raise e ->
  fst (run_cli argv p) = Raise e
  /\ stdout (snd (run_cli argv p)) = (stdout q ++ [output])%list.
Proof.
  intros Hrun Hrender Hon Hsave. remember (run_cli argv p) as run eqn:Hr.
  unfold Cli.run_cli in Hr. unfold bind at 1 in Hr. rewrite Hrun in Hr.
  unfold bind, lift, print, modify, ret in Hr.
  rewrite Hrender, Hon, Hsave in Hr. subst run. split; reflexivity.
Qed.


End Collaborators.

(** X12. Dropping issues from a report never changes the signal as long as
    the critical ones are kept: the signal of the filtered report is the
    signal of the report. *)
Theorem critical_signal_survives_filtering (keep : DriftIssue.t -> bool)
    (issues : list DriftIssue.t) (metadata : gmap string pyobj) :
  (forall issue, DriftIssue.severity issue = CRITICAL -> keep issue = true) ->
  _has_critical_issues (DriftReport.Build (List.filter keep issues) metadata)
  = _has_critical_issues (DriftReport.Build issues metadata).
Proof.
  intros Hkeep. unfold _has_critical_issues. cbn.
  induction issues as [|issue issues IH]; [reflexivity|]. cbn.
  destruct (keep issue) eqn:Hk; cbn; rewrite IH; [reflexivity|].
  destruct (DriftIssue.severity issue) eqn:Hs; try reflexivity.
  rewrite (Hkeep issue Hs) in Hk. discriminate Hk.
Qed.

Local Abbreviation sample_analyse :=
  (analyse MoreSamples.parse_full MoreSamples.resolve_under_root
     Samples.str_zero ∅ Samples.float_zero Samples.all_importable
     Samples.build3 Samples.build4 Samples.build3 Samples.build_generic
     (Samples.detector_returning (Samples.report_of [LOW; CRITICAL]))).

Lemma command_line_beats_environment_witness :
  exists settings report q,
    sample_analyse None MoreSamples.configured = (Ok (settings, report), q)
    /\ Config.provider (Config.llm settings) = "OpenAI"
    /\ Config.model (Config.llm settings) = "gpt-4o"
    /\ Config.api_key (Config.llm settings) = None
    /\ Config.base_url (Config.llm settings) = Some "http://localhost:11434"
    /\ Config.severity_threshold (Config.analysis settings) = "critical"
    /\ Config.format (Config.output settings) = "json".
Proof.
  eexists _, _, _. split; [vm_compute; reflexivity|].
  edestruct (command_line_beats_environment
               MoreSamples.parse_full MoreSamples.resolve_under_root
               Samples.str_zero ∅ Samples.float_zero Samples.all_importable
               Samples.build3 Samples.build4 Samples.build3
               Samples.build_generic
               (Samples.detector_returning (Samples.report_of [LOW; CRITICAL]))
               None MoreSamples.full_arguments MoreSamples.configured)
    as (H1 & H2 & H3 & H4 & H5 & H6).
  - reflexivity.
  - vm_compute. reflexivity.
  - exact (conj H1 (conj H2 (conj H3 (conj H4 (conj H5 H6))))).
Defined.

Lemma temperature_passes_through_text_witness :
  exists settings report q,
    sample_analyse None MoreSamples.configured = (Ok (settings, report), q)
    /\ Samples.float_zero (Samples.str_zero (S754_zero false))
       = Ok (Config.temperature (Config.llm settings)).
Proof.
  eexists _, _, _. split; [vm_compute; reflexivity|].
  eapply (temperature_passes_through_text
            MoreSamples.parse_full MoreSamples.resolve_under_root
            Samples.str_zero ∅ Samples.float_zero Samples.all_importable
            Samples.build3 Samples.build4 Samples.build3
            Samples.build_generic
            (Samples.detector_returning (Samples.report_of [LOW; CRITICAL]))
            None MoreSamples.full_arguments MoreSamples.configured).
  - reflexivity.
  - vm_compute. reflexivity.
Defined.


Lemma revisions_and_flags_of_a_run_witness :
  exists settings report q,
    sample_analyse None MoreSamples.configured = (Ok (settings, report), q)
    /\ Config.from_ref settings = Some "v1"
    /\ Config.to_ref settings = Some "v2"
    /\ Config.branch settings = Some "main"
    /\ Config.check_examples (Config.analysis settings) = false.
Proof.
  eexists _, _, _. split; [vm_compute; reflexivity|].
  edestruct (revisions_and_flags_of_a_run
               MoreSamples.parse_full MoreSamples.resolve_under_root
               Samples.str_zero ∅ Samples.float_zero Samples.all_importable
               Samples.build3 Samples.build4 Samples.build3
               Samples.build_generic
               (Samples.detector_returning (Samples.report_of [LOW; CRITICAL]))
               None MoreSamples.full_arguments MoreSamples.configured)
    as (_ & _ & H1 & H2 & H3 & _ & H4 & _).
  - reflexivity.
  - vm_compute. reflexivity.
  - exact (conj H1 (conj H2 (conj H3 H4))).
Defined.

Lemma run_cli_prints_the_report_witness :
  stdout (snd (run_cli MoreSamples.parse_full MoreSamples.resolve_under_root
                 Samples.str_zero ∅ Samples.float_zero Samples.all_importable
                 Samples.build3 Samples.build4 Samples.build3
                 Samples.build_generic
                 (Samples.detector_returning
                    (Samples.report_of [LOW; CRITICAL]))
                 Samples.render_line Samples.save_at None
                 MoreSamples.configured))
  = ["rendered report"; Llm.nl +:+ "Report saved to /work/out"].
Proof.
  edestruct (run_cli_prints_the_report
               MoreSamples.parse_full MoreSamples.resolve_under_root
               Samples.str_zero ∅ Samples.float_zero Samples.all_importable
               Samples.build3 Samples.build4 Samples.build3
               Samples.build_generic
               (Samples.detector_returning (Samples.report_of [LOW; CRITICAL]))
               Samples.render_line Samples.save_at None MoreSamples.configured)
    as (_ & _ & _ & Hout).
  - vm_compute. reflexivity.
  - reflexivity.
  - exact Hout.
Defined.

Lemma failed_save_loses_the_exit_code_witness :
  exists e,
    fst (run_cli MoreSamples.parse_full MoreSamples.resolve_under_root
           Samples.str_zero ∅ Samples.float_zero Samples.all_importable
           Samples.build3 Samples.build4 Samples.build3
           Samples.build_generic
           (Samples.detector_returning (Samples.report_of [LOW; CRITICAL]))
           Samples.render_line MoreSamples.save_refused None
           MoreSamples.configured) = Raise e
    /\ stdout (snd (run_cli MoreSamples.parse_full
                      MoreSamples.resolve_under_root
                      Samples.str_zero ∅ Samples.float_zero
                      Samples.all_importable Samples.build3 Samples.build4
                      Samples.build3 Samples.build_generic
                      (Samples.detector_returning
                         (Samples.report_of [LOW; CRITICAL]))
                      Samples.render_line MoreSamples.save_refused None
                      MoreSamples.configured))
       = ["rendered report"].
Proof.
  edestruct (failed_save_loses_the_exit_code
               MoreSamples.parse_full MoreSamples.resolve_under_root
               Samples.str_zero ∅ Samples.float_zero Samples.all_importable
               Samples.build3 Samples.build4 Samples.build3
               Samples.build_generic
               (Samples.detector_returning (Samples.report_of [LOW; CRITICAL]))
               Samples.render_line MoreSamples.save_refused None
               MoreSamples.configured)
    as (H1 & H2).
  - vm_compute. reflexivity.
  - reflexivity.
  - reflexivity.
  - reflexivity.
  - eexists. exact (conj H1 H2).
Defined.


Lemma critical_signal_survives_filtering_witness :
  _has_critical_issues
    (DriftReport.Build
       (List.filter MoreSamples.medium_or_more
          (DriftReport.issues (Samples.report_of [LOW; CRITICAL; MEDIUM])))
       ∅)
  = _has_critical_issues
      (DriftReport.Build
         (DriftReport.issues (Samples.report_of [LOW; CRITICAL; MEDIUM])) ∅).
Proof.
  apply (critical_signal_survives_filtering MoreSamples.medium_or_more).
  intros issue Hcritical. unfold MoreSamples.medium_or_more.
  rewrite Hcritical. reflexivity.
Defined.

End CliMore.

(** ** More on [llm.py] *)

Module LlmMore.
Import Py Os Models Llm.

Lemma lower_char_lower_char (c : ascii) :
  lower_char (lower_char c) = lower_char c.
Proof. destruct c as [[] [] [] [] [] [] [] []]; reflexivity. Qed.

Lemma lower_lower (s : string) : lower (lower s) = lower s.
Proof.
  induction s as [|c s IH]; cbn; [reflexivity|].
  now rewrite lower_char_lower_char, IH.
Qed.

Section Providers.

Variable importable : string -> bool.
Variable ChatOllama :
  string -> option string -> spec_float -> outcome BaseChatModel.
Variable ChatOpenAI :
  string -> option string -> spec_float -> option string ->
  outcome BaseChatModel.
Variable ChatAnthropic :
  string -> option string -> spec_float -> outcome BaseChatModel.
Variable init_chat_model :
  string -> string -> spec_float -> option string -> outcome BaseChatModel.

Local Abbreviation create_chat_model :=
  (Llm.create_chat_model importable ChatOllama ChatOpenAI ChatAnthropic
     init_chat_model).

(** X14. A provider that names Ollama, OpenAI or Anthropic is matched
    without regard to case: [create_chat_model] does the same with the name
    as given and with the name in lower case. *)
Theorem named_provider_in_any_case (settings : Config.LLMSettings)
    (p : process) :
  Terms.named_provider (Config.provider settings) = true ->
  create_chat_model settings p
  = create_chat_model
      {| Config.provider := lower (Config.provider settings);
         Config.model := Config.model settings;
         Config.base_url := Config.base_url settings;
         Config.api_key := Config.api_key settings;
         Config.temperature := Config.temperature settings |} p.
Proof.
  unfold Terms.named_provider, Llm.create_chat_model. cbn.
  rewrite lower_lower.
  destruct (String.eqb (lower (Config.provider settings)) "ollama");
    [reflexivity|].
  destruct (String.eqb (lower (Config.provider settings)) "openai");
    [reflexivity|].
  destruct (String.eqb (lower (Config.provider settings)) "anthropic");
    [reflexivity|discriminate].
Qed.

(** X15. When the integration module the provider needs cannot be
    imported, [create_chat_model] raises [RuntimeError] and leaves the
    process as it was: nothing is logged, whatever the constructors would
    have done. *)
Theorem missing_integration_raises (settings : Config.LLMSettings)
    (p : process) :
  importable (Terms.integration_module (Config.provider settings)) = false ->
  exists message,
    create_chat_model settings p = (Raise (RuntimeError message), p).
Proof.
  unfold Terms.integration_module, Llm.create_chat_model.
  destruct (String.eqb (lower (Config.provider settings)) "ollama");
    [intros ->; eexists; reflexivity|].
  destruct (String.eqb (lower (Config.provider settings)) "openai");
    [intros ->; eexists; reflexivity|].
  destruct (String.eqb (lower (Config.provider settings)) "anthropic");
    intros ->; eexists; reflexivity.
Qed.

(** X16. [create_chat_model] never changes the environment, standard
    output or the calls. It logs one warning, naming the provider as given,
    exactly when the provider is none of the three named ones and the
    generic factory can be imported; otherwise the log is unchanged. *)
Theorem create_chat_model_logs_for_unnamed_only
    (settings : Config.LLMSettings) (p : process) :
  let q := snd (create_chat_model settings p) in
  environ q = environ p /\ stdout q = stdout p /\ calls q = calls p
  /\ log q
     = if negb (Terms.named_provider (Config.provider settings))
          && importable "langchain.chat_models"
       then (log p ++
             [Warning ("Using generic init_chat_model for provider '%s'. "
                       +:+ "Ensure the provider is supported by LangChain.")
                [ArgStr (Config.provider settings)]])%list
       else log p.
Proof.
  unfold Terms.named_provider, Llm.create_chat_model.
  destruct (String.eqb (lower (Config.provider settings)) "ollama");
    [destruct (importable _); cbn; repeat split|].
  destruct (String.eqb (lower (Config.provider settings)) "openai");
    [destruct (importable _); cbn; repeat split|].
  destruct (String.eqb (lower (Config.provider settings)) "anthropic");
    [destruct (importable _); cbn; repeat split|].
  destruct (importable _); cbn; repeat split.
Qed.

End Providers.

Lemma named_provider_in_any_case_witness :
  Llm.create_chat_model Samples.all_importable Samples.build3 Samples.build4
    Samples.build3 Samples.build_generic MoreSamples.openai_settings
    Samples.idle
  = Llm.create_chat_model Samples.all_importable Samples.build3 Samples.build4
      Samples.build3 Samples.build_generic
      {| Config.provider := "openai"; Config.model := "gpt-4o";
         Config.base_url := None; Config.api_key := Some "sk-test";
         Config.temperature := S754_zero false |}
      Samples.idle.
Proof.
  apply (named_provider_in_any_case Samples.all_importable Samples.build3
           Samples.build4 Samples.build3 Samples.build_generic
           MoreSamples.openai_settings Samples.idle).
  reflexivity.
Defined.

Lemma missing_integration_raises_witness :
  exists message,
    Llm.create_chat_model MoreSamples.nothing_importable Samples.build3
      Samples.build4 Samples.build3 Samples.build_generic
      MoreSamples.openai_settings Samples.idle
    = (Raise (RuntimeError message), Samples.idle).
Proof.
  apply (missing_integration_raises MoreSamples.nothing_importable
           Samples.build3 Samples.build4 Samples.build3 Samples.build_generic
           MoreSamples.openai_settings Samples.idle).
  reflexivity.
Defined.

(** The loop over the references builds the two lists of [map]. *)
Lemma references_loop (docs : list DocumentationReference.t)
    (texts marks : list string) :
  List.fold_left
    (fun '(documentation_text, doc_changed) ref =>
       (documentation_text ++
          [DocumentationReference.file_path ref +:+ " (changed="
           +:+ str_bool (DocumentationReference.changed ref) +:+ "):"
           +:+ nl +:+ DocumentationReference.snippet ref],
        doc_changed ++
          [if DocumentationReference.changed ref then "yes" else "no"])%list)
    docs (texts, marks)
  = ((texts ++ List.map Terms.reference_text docs)%list,
     (marks ++ List.map Terms.reference_mark docs)%list).
Proof.
  revert texts marks.
  induction docs as [|ref docs IH]; intros texts marks; cbn.
  - now rewrite !app_nil_r.
  - rewrite IH, <- !app_assoc. reflexivity.
Qed.

Lemma prompt_inputs_run (candidate : DriftCandidate.t) :
  let docs := DriftCandidate.documentation candidate in
  let change := DriftCandidate.change candidate in
  prompt_inputs candidate
  = {[ "drift_type" := drift_type_value (DriftCandidate.drift_type candidate);
       "code_change" := CodeChange.summary change +:+ nl +:+ nl
                        +:+ code_text change;
       "documentation" :=
         match docs with
         | [] => "No related documentation found."
         | _ => join Terms.rule (List.map Terms.reference_text docs)
         end;
       "doc_changed" :=
         match docs with
         | [] => "n/a"
         | _ => join ", " (List.map Terms.reference_mark docs)
         end;
       "candidate_description" := DriftCandidate.description candidate ]}.
Proof.
  unfold prompt_inputs. rewrite references_loop.
  destruct (DriftCandidate.documentation candidate) as [|ref docs];
    reflexivity.
Qed.


(** X18. In the request, the documentation is the text of each reference
    (path, changed flag, snippet), in order, separated by a rule, and the
    changed entry is [yes] or [no] per reference, in order, separated by
    commas; for a candidate without references they are the sentence
    [No related documentation found.] and [n/a]. *)
Theorem request_lists_the_references (candidate : DriftCandidate.t) :
  let docs := DriftCandidate.documentation candidate in
  prompt_inputs candidate !! "documentation"
  = Some match docs with
         | [] => "No related documentation found."
         | _ => join Terms.rule (List.map Terms.reference_text docs)
         end
  /\ prompt_inputs candidate !! "doc_changed"
     = Some match docs with
            | [] => "n/a"
            | _ => join ", " (List.map Terms.reference_mark docs)
            end.
Proof.
  rewrite prompt_inputs_run. split; reflexivity.
Qed.

Section Decoder.

Variable json_loads : string -> outcome pyobj.

(** The three ways through [generate_issue]. *)
Lemma generate_issue_cases (self : LLMClient) (candidate : DriftCandidate.t)
    (fb : Severity) (p : process) :
  (Spec.call_fails json_loads self (calls p) (prompt_inputs candidate) = true
   /\ exists exc,
        generate_issue json_loads self candidate fb p
        = (Ok (Spec.local_fallback_issue self candidate fb),
           Process (environ p) (stdout p)
             (log p ++ [Warning "LLM suggestion failed (%s). Using fallback."
                          [ArgExn exc]])%list
             (calls p ++ [prompt_inputs candidate])%list))
  \/ (Spec.call_fails json_loads self (calls p) (prompt_inputs candidate)
      = false
      /\ exists data,
           Spec.call_yields json_loads self (calls p) (prompt_inputs candidate)
             data
           /\ ((exists d, data = PyDict d
                /\ generate_issue json_loads self candidate fb p
                   = (match _parse_severity
                              (default PyNone (d !! "severity")) fb with
                      | Ok severity =>
                          Ok (Spec.issue_of_object self candidate severity d)
                      | Raise exc => Raise exc
                      end,
                      Spec.after_call p (prompt_inputs candidate)))
               \/ ((forall d, data <> PyDict d)
                   /\ generate_issue json_loads self candidate fb p
                      = (Raise (AttributeError (type_name data) "get"),
                         Spec.after_call p (prompt_inputs candidate))))).
Proof.
  destruct (Spec.call_fails json_loads self (calls p)
              (prompt_inputs candidate)) eqn:Hfails.
  - left. split; [reflexivity|].
    now apply LlmFacts.generate_issue_after_failure.
  - right. split; [reflexivity|]. unfold Spec.call_fails in Hfails.
    destruct (_chain self (calls p) (prompt_inputs candidate))
      as [raw|exc] eqn:Hraw; [|discriminate Hfails].
    destruct (json_loads raw) as [data|exc] eqn:Hdata; [|discriminate Hfails].
    assert (Hyields : Spec.call_yields json_loads self (calls p)
                        (prompt_inputs candidate) data)
      by (exists raw; split; assumption).
    exists data. split; [exact Hyields|].
    destruct data as [| | | | |l|d];
      try (right; split; [discriminate|];
           now apply LlmFacts.generate_issue_of_non_object).
    left. exists d. split; [reflexivity|].
    now apply LlmFacts.generate_issue_of_object.
Qed.

(** X19. Whatever the external response, an issue that [generate_issue]
    returns has the drift type and the file path of its candidate, and a
    metadata of two entries: the class name of the chat model and the
    symbol of the change. *)
Theorem response_cannot_touch_identity (self : LLMClient)
    (candidate : DriftCandidate.t) (fallback_severity : Severity)
    (p : process) (issue : DriftIssue.t) :
  fst (generate_issue json_loads self candidate fallback_severity p)
  = Ok issue ->
  DriftIssue.drift_type issue = DriftCandidate.drift_type candidate
  /\ DriftIssue.file_path issue
     = CodeChange.file_path (DriftCandidate.change candidate)
  /\ DriftIssue.metadata issue
     = {[ "provider" := PyStr (class_name (chat_model self));
          "symbol" := of_opt (CodeChange.symbol
                                (DriftCandidate.change candidate)) ]}.
Proof.
  destruct (generate_issue_cases self candidate fallback_severity p)
    as [(_ & exc & ->)
       |(_ & data & _ & [(d & -> & ->)|(_ & ->)])]; cbn [fst].
  - intros [= <-]. repeat split.
  - destruct (_parse_severity _ _); [|discriminate].
    intros [= <-]. repeat split.
  - discriminate.
Qed.

(** X20. For a candidate whose description is not empty, an issue that
    [generate_issue] returns never has a falsy summary or suggestion: an
    empty, null or missing one in the response is replaced. *)
Theorem issue_text_is_never_empty (self : LLMClient)
    (candidate : DriftCandidate.t) (fallback_severity : Severity)
    (p : process) (issue : DriftIssue.t) :
  DriftCandidate.description candidate <> EmptyString ->
  fst (generate_issue json_loads self candidate fallback_severity p)
  = Ok issue ->
  truthy (DriftIssue.summary issue) = true
  /\ truthy (DriftIssue.suggestion issue) = true.
Proof.
  intros Hdescription.
  assert (Htext : truthy (PyStr (DriftCandidate.description candidate)) = true)
    by (destruct (DriftCandidate.description candidate); easy).
  assert (Hor : forall v,
            truthy (py_or v (PyStr (DriftCandidate.description candidate)))
            = true).
  { intros v. unfold py_or. destruct (truthy v) eqn:Hv; assumption. }
  destruct (generate_issue_cases self candidate fallback_severity p)
    as [(_ & exc & ->)
       |(_ & data & _ & [(d & -> & ->)|(_ & ->)])]; cbn [fst].
  - intros [= <-]. split; [exact Htext | reflexivity].
  - destruct (_parse_severity _ _); [|discriminate].
    intros [= <-]. split; apply Hor.
  - discriminate.
Qed.

(** X21. [generate_issue] raises in two cases only, both with
    [AttributeError]: the response decodes to a value that is not an
    object (on [get]), or to an object whose severity is truthy and not a
    string (on [strip]). In every other case, a failed call and a falsy
    severity of any type included, it returns an issue. *)
Theorem generate_issue_raises_exactly (self : LLMClient)
    (candidate : DriftCandidate.t) (fallback_severity : Severity)
    (p : process) :
  let run := fst (generate_issue json_loads self candidate
                    fallback_severity p) in
  let returns := exists issue, run = Ok issue in
  match _chain self (calls p) (prompt_inputs candidate) with
  | Raise _ => returns
  | Ok raw =>
      match json_loads raw with
      | Raise _ => returns
      | Ok (PyDict d) =>
          match default PyNone (d !! "severity") with
          | PyStr _ => returns
          | value =>
              if truthy value
              then run = Raise (AttributeError (type_name value) "strip")
              else returns
          end
      | Ok data => run = Raise (AttributeError (type_name data) "get")
      end
  end.
Proof.
  cbv zeta.
  destruct (generate_issue_cases self candidate fallback_severity p)
    as [(Hfails & exc & ->)
       |(Hfails & data & (raw & Hraw & Hdata) & Hshape)];
    unfold Spec.call_fails in Hfails.
  - destruct (_chain self (calls p) (prompt_inputs candidate)) as [raw|e];
      [destruct (json_loads raw) as [data|e]; [discriminate Hfails|]|];
      eexists; reflexivity.
  - rewrite Hraw, Hdata.
    destruct Hshape as [(d & -> & ->)|(Hnot & ->)]; cbn [fst].
    + destruct (default PyNone (d !! "severity")) as [|b|z|f|text|l|d'];
        unfold _parse_severity; cbn [negb truthy];
        try (eexists; reflexivity).
      * destruct b; cbn; [reflexivity | eexists; reflexivity].
      * destruct (z =? 0)%Z; cbn; [eexists; reflexivity | reflexivity].
      * destruct f; cbn; try reflexivity; eexists; reflexivity.
      * destruct text; cbn; eexists; reflexivity.
      * destruct l; cbn; [eexists; reflexivity | reflexivity].
      * destruct (bool_decide (d' = ∅)); cbn;
          [eexists; reflexivity | reflexivity].
    + destruct data; try reflexivity. now destruct (Hnot d).
Qed.

(** X22. [generate_issue] leaves the environment and standard output
    alone, and logs one warning, carrying the exception, exactly when the
    external call fails; a response that decodes leaves the log as it was,
    even when [generate_issue] then raises. *)
Theorem generate_issue_warns_on_failure_only (self : LLMClient)
    (candidate : DriftCandidate.t) (fallback_severity : Severity)
    (p : process) :
  let q := snd (generate_issue json_loads self candidate
                  fallback_severity p) in
  environ q = environ p /\ stdout q = stdout p
  /\ if Spec.call_fails json_loads self (calls p) (prompt_inputs candidate)
     then exists exc,
            log q = (log p ++
                     [Warning "LLM suggestion failed (%s). Using fallback."
                        [ArgExn exc]])%list
     else log q = log p.
Proof.
  cbv zeta.
  destruct (generate_issue_cases self candidate fallback_severity p)
    as [(-> & exc & ->)
       |(-> & data & _ & [(d & -> & ->)|(_ & ->)])]; cbn [snd];
    repeat split. exists exc. reflexivity.
Qed.

End Decoder.

(** X23. The identifier of a severity parses back to that severity
    whatever the default, and so does any spelling of it that differs by
    case or surrounding whitespace. *)
Theorem severity_round_trip (severity default : Severity) (text : string) :
  lower (strip text) = severity_value severity ->
  _parse_severity (PyStr text) default = Ok severity
  /\ _parse_severity (PyStr (severity_value severity)) default = Ok severity.
Proof.
  intros Hname. split.
  - now apply LlmFacts.parse_severity_named.
  - apply LlmFacts.parse_severity_named. now destruct severity.
Qed.

Lemma response_cannot_touch_identity_witness :
  exists issue,
    fst (generate_issue Json.loads
           (Samples.client_answering (Ok Samples.response_without_suggestion))
           Samples.fetch_candidate MEDIUM Samples.idle) = Ok issue
    /\ DriftIssue.drift_type issue = SIGNATURE_CHANGE
    /\ DriftIssue.file_path issue = "src/api.py"
    /\ DriftIssue.metadata issue
       = {[ "provider" := PyStr "ChatOllama"; "symbol" := PyStr "fetch" ]}.
Proof.
  eexists. split; [vm_compute; reflexivity|].
  eapply (response_cannot_touch_identity Json.loads
            (Samples.client_answering (Ok Samples.response_without_suggestion))
            Samples.fetch_candidate MEDIUM Samples.idle).
  vm_compute. reflexivity.
Defined.

Lemma issue_text_is_never_empty_witness :
  exists issue,
    fst (generate_issue Json.loads
           (Samples.client_answering (Ok Samples.response_without_suggestion))
           Samples.fetch_candidate MEDIUM Samples.idle) = Ok issue
    /\ truthy (DriftIssue.summary issue) = true
    /\ truthy (DriftIssue.suggestion issue) = true.
Proof.
  eexists. split; [vm_compute; reflexivity|].
  eapply (issue_text_is_never_empty Json.loads
            (Samples.client_answering (Ok Samples.response_without_suggestion))
            Samples.fetch_candidate MEDIUM Samples.idle).
  - discriminate.
  - vm_compute. reflexivity.
Defined.

Lemma severity_round_trip_witness :
  _parse_severity (PyStr " Critical ") LOW = Ok CRITICAL
  /\ _parse_severity (PyStr "critical") LOW = Ok CRITICAL.
Proof.
  apply (severity_round_trip CRITICAL LOW " Critical "). reflexivity.
Defined.

(** X24. The loop of [_parse_severity] returns the same severity in
    whatever order the enumeration lists its members, and that severity is
    the default or the one member whose identifier is the normalized
    text: the order in which [models.py] declares the members does not
    matter. *)
Theorem member_order_is_irrelevant (members : list Severity)
    (normalized : string) (default : Severity) :
  (forall severity, In severity members) ->
  first_named members normalized default
  = first_named Severity_members normalized default
  /\ (first_named members normalized default = default
      \/ severity_value (first_named members normalized default)
         = normalized).
Proof.
  intros Hall. split; [now apply LlmFacts.first_named_any_order|].
  clear Hall. induction members as [|member members IH];
    [left; reflexivity|]. cbn.
  destruct (String.eqb_spec (severity_value member) normalized) as [Hname|_];
    [right; exact Hname | exact IH].
Qed.

Lemma member_order_is_irrelevant_witness :
  first_named [CRITICAL; MEDIUM; LOW] "medium" LOW
  = first_named Severity_members "medium" LOW
  /\ (first_named [CRITICAL; MEDIUM; LOW] "medium" LOW = LOW
      \/ severity_value (first_named [CRITICAL; MEDIUM; LOW] "medium" LOW)
         = "medium").
Proof.
  apply (member_order_is_irrelevant [CRITICAL; MEDIUM; LOW] "medium" LOW).
  intros []; simpl; tauto.
Defined.

End LlmMore.
